(** * Marzban metrics exporter: the upstream client and the Prometheus collector

    A shallow embedding of [src/api.py] (classes [MarzbanAPI] and
    [PrometheusCollector]) together with the parts of [httpx] and
    [prometheus_client] that the two classes call.

    - JSON bodies are Python values ([pyval]); a JSON object is a finite map
      with string keys.
    - The code raises and mutates: computations live in a state-and-exception
      monad [M].  The state holds the collector's [self.metrics] dictionary
      (the metric families are built once, in [__init__], and mutated by
      [add_metric]) and the log of HTTP requests sent so far.  An exception
      does not roll the state back, as in Python.
    - The control plane is a function from requests to outcomes. *)

From Stdlib Require Import ZArith QArith_base DecimalString.
From stdpp Require Import base gmap strings list.

Set Warnings "-register-all".

Local Open Scope Z_scope.
Local Open Scope string_scope.
Local Open Scope list_scope.

(** ** Python values *)

(** What [json.loads] returns.  A float is carried as the rational it denotes
    (no arithmetic is ever done on it by the exporter); NaN and the
    infinities, which strict JSON does not have, are left out. *)
Inductive pyval : Type :=
| PNone
| PBool (b : bool)
| PInt (n : Z)
| PFloat (q : Q)
| PStr (s : string)
| PList (l : list pyval)
| PDict (d : gmap string pyval).

(** ** Exceptions *)

(** The two [httpx.HTTPError] subclasses the client can meet. *)
Inductive httpx_error : Type :=
| TransportError (detail : string)
| HTTPStatusError (status : Z).

Inductive exn : Type :=
| HTTPError (e : httpx_error)
    (* an httpx exception travelling as it was raised *)
| Exception_fetching (endpoint : string) (e : httpx_error)
    (* Exception(f"Error fetching data from {endpoint}: {e}") *)
| Exception_of (e : httpx_error)
    (* Exception(e) *)
| JSONDecodeError
| KeyError (key : string)
| AttributeError (attr : string)
| TypeError
| ValueError.

Inductive result (A : Type) : Type :=
| Ok (a : A)
| Raise (e : exn).
Arguments Ok {A} a.
Arguments Raise {A} e.

(** ** prometheus_client: samples and gauge families *)

Record Sample : Type := mkSample {
  sample_name : string;
  sample_labels : list (string * pyval);
  sample_value : pyval
}.

Record GaugeMetricFamily : Type := mkFamily {
  name : string;
  documentation : string;
  labelnames : list string;
  samples : list Sample
}.

(** ** httpx: requests, responses and the control plane *)

Inductive http_method : Type := GET | POST.

Record request : Type := mkRequest {
  req_method : http_method;
  req_path : string;
  req_authorization : option string;
  req_form : list (string * option string)
}.

(** [body] is the parsed JSON body, [None] when the body is not JSON. *)
Record response : Type := mkResponse {
  status_code : Z;
  body : option pyval
}.

(** What one request meets: an answer, or a failure below HTTP (connection
    refused, timeout, ...). *)
Inductive outcome : Type :=
| Answered (r : response)
| Failed (detail : string).

Definition control_plane : Type := request -> outcome.

(** The three module-level settings read with [os.getenv]. *)
Record settings : Type := mkSettings {
  MARZBAN_URL : option string;
  MARZBAN_USERNAME : option string;
  MARZBAN_PASSWORD : option string
}.

(** ** The state-and-exception monad *)

Record state : Type := mkState {
  metrics : list (string * GaugeMetricFamily);  (* self.metrics *)
  sent : list request                           (* requests issued so far *)
}.

Definition M (A : Type) : Type := state -> result A * state.

Definition ret {A} (a : A) : M A := fun st => (Ok a, st).

Definition raise {A} (e : exn) : M A := fun st => (Raise e, st).

Definition bind {A B} (m : M A) (k : A -> M B) : M B :=
  fun st =>
    match m st with
    | (Ok a, st') => k a st'
    | (Raise e, st') => (Raise e, st')
    end.

Definition lift {A} (r : result A) : M A := fun st => (r, st).

Notation "x <- m ;; k" := (bind m (fun x => k))
  (at level 100, m at next level, right associativity).
Notation "m ;; k" := (bind m (fun _ => k))
  (at level 100, right associativity).

(** [try: m  except httpx.HTTPError as e: h e] *)
Definition try_except_HTTPError {A} (m : M A) (h : httpx_error -> M A) : M A :=
  fun st =>
    match m st with
    | (Raise (HTTPError e), st') => h e st'
    | r => r
    end.

(** [try: m  except httpx.HTTPStatusError as e: h e] *)
Definition try_except_HTTPStatusError {A} (m : M A) (h : httpx_error -> M A)
  : M A :=
  fun st =>
    match m st with
    | (Raise (HTTPError (HTTPStatusError c)), st') => h (HTTPStatusError c) st'
    | r => r
    end.

(** [for x in xs: body x] over the elements already drawn from the iterable. *)
Fixpoint for_each (xs : list pyval) (body : pyval -> M unit) : M unit :=
  match xs with
  | [] => ret tt
  | x :: xs' => body x ;; for_each xs' body
  end.

(** ** Python builtins on JSON values *)

(** [v.get(key, default)]: only a dict has the method. *)
Definition get (v : pyval) (key : string) (default : pyval) : M pyval :=
  match v with
  | PDict d => ret (match d !! key with Some x => x | None => default end)
  | _ => raise (AttributeError "get")
  end.

(** [v[key]] with a string key. *)
Definition subscript (v : pyval) (key : string) : M pyval :=
  match v with
  | PDict d =>
      match d !! key with
      | Some x => ret x
      | None => raise (KeyError key)
      end
  | _ => raise TypeError
  end.

(** The elements a [for] loop draws from [v].  Iterating a dict yields its
    keys and iterating a string its characters; every one of them is a [str],
    so their order is immaterial to the loops below, which call [.get] on
    each element. *)
Definition py_iter (v : pyval) : result (list pyval) :=
  match v with
  | PList l => Ok l
  | PDict d => Ok (map (fun kv => PStr (fst kv)) (map_to_list d))
  | PStr s => Ok (map (fun c => PStr (String c EmptyString)) (String.list_ascii_of_string s))
  | _ => Raise TypeError
  end.

(** [for x in v: body x] *)
Definition for_in (v : pyval) (body : pyval -> M unit) : M unit :=
  xs <- lift (py_iter v) ;;
  for_each xs body.

(** [len(v)] *)
Definition len (v : pyval) : M pyval :=
  match v with
  | PList l => ret (PInt (Z.of_nat (length l)))
  | PDict d => ret (PInt (Z.of_nat (size d)))
  | PStr s => ret (PInt (Z.of_nat (String.length s)))
  | _ => raise TypeError
  end.

Section Exporter.

(** Two builtins work on text and are taken as given: [repr], and the parsing
    that [int] does on a [str] ([None] when it raises [ValueError]). *)
Variable repr : pyval -> string.
Variable int_of_str : string -> option Z.

(** [str(v)]: a [str] is returned as it is, and for every other JSON value
    [str] is [repr]. *)
Definition str (v : pyval) : string :=
  match v with
  | PStr s => s
  | _ => repr v
  end.

(** [int(v)]: a float is truncated towards zero. *)
Definition int (v : pyval) : M pyval :=
  match v with
  | PBool b => ret (PInt (if b then 1 else 0))
  | PInt n => ret (PInt n)
  | PFloat q => ret (PInt (Z.quot (Qnum q) (Zpos (Qden q))))
  | PStr s =>
      match int_of_str s with
      | Some n => ret (PInt n)
      | None => raise ValueError
      end
  | _ => raise TypeError
  end.

(** ** class MarzbanAPI *)

Record MarzbanAPI : Type := mkMarzbanAPI {
  token : pyval
}.

(** [self.client.post(path, data=form)]: the request goes out; no status is
    looked at. *)
Definition client_post (srv : control_plane) (path : string)
    (form : list (string * option string)) : M response :=
  fun st =>
    let rq := mkRequest POST path None form in
    let st' := mkState (metrics st) (sent st ++ [rq]) in
    match srv rq with
    | Answered r => (Ok r, st')
    | Failed detail => (Raise (HTTPError (TransportError detail)), st')
    end.

(** [self.client.get(endpoint, headers={"Authorization": authorization})] *)
Definition client_get (srv : control_plane) (endpoint : string)
    (authorization : string) : M response :=
  fun st =>
    let rq := mkRequest GET endpoint (Some authorization) [] in
    let st' := mkState (metrics st) (sent st ++ [rq]) in
    match srv rq with
    | Answered r => (Ok r, st')
    | Failed detail => (Raise (HTTPError (TransportError detail)), st')
    end.

(** [response.is_success] *)
Definition is_success (r : response) : bool :=
  (200 <=? status_code r)%Z && (status_code r <=? 299)%Z.

(** [response.raise_for_status()] *)
Definition raise_for_status (r : response) : M unit :=
  if is_success r then ret tt
  else raise (HTTPError (HTTPStatusError (status_code r))).

(** [response.json()] *)
Definition json (r : response) : M pyval :=
  match body r with
  | Some v => ret v
  | None => raise JSONDecodeError
  end.

Definition _get_token (cfg : settings) (srv : control_plane) : M pyval :=
  try_except_HTTPStatusError
    (r <- client_post srv "/admin/token"
            [("username", MARZBAN_USERNAME cfg);
             ("password", MARZBAN_PASSWORD cfg)] ;;
     v <- json r ;;
     request <- subscript v "access_token" ;;
     ret request)
    (fun e => raise (Exception_of e)).

(** [MarzbanAPI.__init__] *)
Definition MarzbanAPI_init (cfg : settings) (srv : control_plane)
  : M MarzbanAPI :=
  tok <- _get_token cfg srv ;;
  ret (mkMarzbanAPI tok).

Definition _fetch (self : MarzbanAPI) (srv : control_plane)
    (endpoint : string) : M pyval :=
  try_except_HTTPError
    (response <- client_get srv endpoint ("Bearer " ++ str (token self)) ;;
     raise_for_status response ;;
     json response)
    (fun e => raise (Exception_fetching endpoint e)).

Definition fetch_nodes_data (self : MarzbanAPI) (srv : control_plane) : M pyval :=
  _fetch self srv "/nodes".

Definition fetch_nodes_usage_data (self : MarzbanAPI) (srv : control_plane) : M pyval :=
  _fetch self srv "/nodes/usage".

Definition fetch_system_data (self : MarzbanAPI) (srv : control_plane) : M pyval :=
  _fetch self srv "/system".

Definition fetch_core_data (self : MarzbanAPI) (srv : control_plane) : M pyval :=
  _fetch self srv "/core".

Definition fetch_users_data (self : MarzbanAPI) (srv : control_plane) : M pyval :=
  _fetch self srv "/users".

(** ** class PrometheusCollector *)

(** [GaugeMetricFamily(name, documentation, labels=labels)] *)
Definition new_family (name documentation : string) (labels : list string)
  : GaugeMetricFamily :=
  mkFamily name documentation labels [].

(** [family.add_metric(labels, value)]: the sample is appended to the family;
    its label dict is [dict(zip(labelnames, labels))]. *)
Definition family_add_metric (f : GaugeMetricFamily) (labels : list pyval)
    (value : pyval) : GaugeMetricFamily :=
  mkFamily (name f) (documentation f) (labelnames f)
    (samples f ++ [mkSample (name f) (combine (labelnames f) labels) value]).

(** The dictionary that [__init__] stores in [self.metrics], in the order of
    the literal. *)
Definition metrics_init : list (string * GaugeMetricFamily) :=
  [ ("node_usage_coefficient",
      new_family "node_usage_coefficient" "Node usage coefficient" ["node_name"]);
    ("node_address",
      new_family "node_info"
        "Node address, port, API port, xray version, and status"
        ["node_name"; "address"; "port"; "api_port"; "xray_version"; "status"]);
    ("node_uplink",
      new_family "node_uplink_bytes" "Node uplink traffic in bytes" ["node_name"]);
    ("node_downlink",
      new_family "node_downlink_bytes" "Node downlink traffic in bytes" ["node_name"]);
    ("system_version",
      new_family "system_version" "System version" []);
    ("system_mem_total",
      new_family "system_memory_total_bytes" "Total system memory in bytes" []);
    ("system_mem_used",
      new_family "system_memory_used_bytes" "Used system memory in bytes" []);
    ("system_cpu_usage",
      new_family "system_cpu_usage_percent" "System CPU usage percentage" []);
    ("system_total_users",
      new_family "system_total_users" "Total number of users in the system" []);
    ("system_active_users",
      new_family "system_active_users" "Number of active users in the system" []);
    ("system_incoming_bandwidth",
      new_family "system_incoming_bandwidth_bytes" "Total incoming bandwidth in bytes" []);
    ("system_outgoing_bandwidth",
      new_family "system_outgoing_bandwidth_bytes" "Total outgoing bandwidth in bytes" []);
    ("core_started",
      new_family "core_started" "Core started status" []);
    ("total_users",
      new_family "total_users" "Total number of users" []);
    ("user_traffic",
      new_family "user_lifetime_used_traffic_bytes"
        "Lifetime used traffic per user in bytes" ["username"]) ].

(** [PrometheusCollector.__init__]: the families are created here, once. *)
Definition PrometheusCollector_init : M unit :=
  fun st => (Ok tt, mkState metrics_init (sent st)).

(** The dictionary after [d[key] = g(d[key])], [None] when [key] is not in
    it. *)
Fixpoint metrics_update (key : string)
    (g : GaugeMetricFamily -> GaugeMetricFamily)
    (m : list (string * GaugeMetricFamily))
  : option (list (string * GaugeMetricFamily)) :=
  match m with
  | [] => None
  | (k, f) :: m' =>
      if String.eqb k key then Some ((k, g f) :: m')
      else option_map (cons (k, f)) (metrics_update key g m')
  end.

(** [self.metrics[key].add_metric(labels, value)].  Python looks
    [self.metrics[key]] up before it evaluates the arguments; the passes
    below evaluate the arguments first.  The two orders differ only when
    [key] is missing from the dictionary, and the keys used are the literal
    keys of the dictionary that [__init__] builds. *)
Definition add_metric (key : string) (labels : list pyval) (value : pyval)
  : M unit :=
  fun st =>
    match metrics_update key (fun f => family_add_metric f labels value)
            (metrics st) with
    | Some m' => (Ok tt, mkState m' (sent st))
    | None => (Raise (KeyError key), st)
    end.

(** [self.metrics.values()] *)
Definition metrics_values : M (list GaugeMetricFamily) :=
  fun st => (Ok (map snd (metrics st)), st).

Definition _collect_nodes_metrics (self : MarzbanAPI) (srv : control_plane)
  : M unit :=
  nodes <- fetch_nodes_data self srv ;;
  for_in nodes (fun node =>
    node_name <- get node "name" (PStr "unknown") ;;
    usage_coefficient <- get node "usage_coefficient" (PInt 0) ;;
    add_metric "node_usage_coefficient" [node_name] usage_coefficient ;;
    address <- get node "address" (PStr "unknown") ;;
    port <- get node "port" (PStr "unknown") ;;
    api_port <- get node "api_port" (PStr "unknown") ;;
    xray_version <- get node "xray_version" (PStr "unknown") ;;
    status <- get node "status" (PStr "unknown") ;;
    add_metric "node_address"
      [ PStr (str node_name);
        PStr (str address);
        PStr (str port);
        PStr (str api_port);
        PStr (str xray_version);
        PStr (str status) ]
      (PInt 1)).

Definition _collect_nodes_usage_metrics (self : MarzbanAPI)
    (srv : control_plane) : M unit :=
  usage_data <- fetch_nodes_usage_data self srv ;;
  usages <- get usage_data "usages" (PList []) ;;
  for_in usages (fun usage =>
    node_name <- get usage "node_name" (PStr "unknown") ;;
    uplink <- get usage "uplink" (PInt 0) ;;
    add_metric "node_uplink" [node_name] uplink ;;
    downlink <- get usage "downlink" (PInt 0) ;;
    add_metric "node_downlink" [node_name] downlink).

Definition _collect_system_metrics (self : MarzbanAPI) (srv : control_plane)
  : M unit :=
  system_data <- fetch_system_data self srv ;;
  add_metric "system_version" [] (PInt 1) ;;
  mem_total <- get system_data "mem_total" (PInt 0) ;;
  add_metric "system_mem_total" [] mem_total ;;
  mem_used <- get system_data "mem_used" (PInt 0) ;;
  add_metric "system_mem_used" [] mem_used ;;
  cpu_usage <- get system_data "cpu_usage" (PInt 0) ;;
  add_metric "system_cpu_usage" [] cpu_usage ;;
  total_user <- get system_data "total_user" (PInt 0) ;;
  add_metric "system_total_users" [] total_user ;;
  users_active <- get system_data "users_active" (PInt 0) ;;
  add_metric "system_active_users" [] users_active ;;
  incoming_bandwidth <- get system_data "incoming_bandwidth" (PInt 0) ;;
  add_metric "system_incoming_bandwidth" [] incoming_bandwidth ;;
  outgoing_bandwidth <- get system_data "outgoing_bandwidth" (PInt 0) ;;
  add_metric "system_outgoing_bandwidth" [] outgoing_bandwidth.

Definition _collect_core_metrics (self : MarzbanAPI) (srv : control_plane)
  : M unit :=
  core_data <- fetch_core_data self srv ;;
  started <- get core_data "started" (PBool false) ;;
  value <- int started ;;
  add_metric "core_started" [] value.

Definition _collect_users_metrics (self : MarzbanAPI) (srv : control_plane)
  : M unit :=
  users_data <- fetch_users_data self srv ;;
  users <- get users_data "users" (PList []) ;;
  n <- len users ;;
  add_metric "total_users" [] n ;;
  for_in users (fun user =>
    username <- get user "username" (PStr "unknown") ;;
    traffic <- get user "lifetime_used_traffic" (PInt 0) ;;
    add_metric "user_traffic" [username] traffic).

(** [collect], run to the end of the generator: the five passes, then every
    family of [self.metrics] is yielded.  The families yielded are the
    objects held in [self.metrics], with the samples they hold at that
    point. *)
Definition collect (self : MarzbanAPI) (srv : control_plane)
  : M (list GaugeMetricFamily) :=
  _collect_nodes_metrics self srv ;;
  _collect_nodes_usage_metrics self srv ;;
  _collect_system_metrics self srv ;;
  _collect_core_metrics self srv ;;
  _collect_users_metrics self srv ;;
  metrics_values.

(** What happens when [exporter.py] is loaded: importing [api] evaluates the
    default argument [MarzbanAPI()] of [PrometheusCollector.__init__], and
    [api.PrometheusCollector()] then builds the collector around it.  Only
    after that can [/metrics] be served. *)
Definition startup (cfg : settings) (srv : control_plane) : M MarzbanAPI :=
  api_client <- MarzbanAPI_init cfg srv ;;
  PrometheusCollector_init ;;
  ret api_client.

End Exporter.

(** ** Vocabulary of the statements *)

(** The request that [_fetch] sends for [endpoint]. *)
Definition get_request (repr : pyval -> string) (self : MarzbanAPI)
    (endpoint : string) : request :=
  mkRequest GET endpoint (Some ("Bearer " ++ str repr (token self))%string) [].

(** The request that [_get_token] sends. *)
Definition token_request (cfg : settings) : request :=
  mkRequest POST "/admin/token" None
    [("username", MARZBAN_USERNAME cfg); ("password", MARZBAN_PASSWORD cfg)].

(** The five resource paths, in the order in which [collect] asks for them. *)
Definition endpoints : list string :=
  ["/nodes"; "/nodes/usage"; "/system"; "/core"; "/users"].

(** The state once [rq] has gone out. *)
Definition log (rq : request) (st : state) : state :=
  mkState (metrics st) (sent st ++ [rq]).

(** The JSON body of a 2xx answer. *)
Definition success_body (o : outcome) : option pyval :=
  match o with
  | Answered r => if is_success r then body r else None
  | Failed _ => None
  end.

(** The httpx error behind a transport failure or a non-2xx answer. *)
Definition failure_of (o : outcome) : option httpx_error :=
  match o with
  | Answered r =>
      if is_success r then None else Some (HTTPStatusError (status_code r))
  | Failed detail => Some (TransportError detail)
  end.

(** [self.metrics.get(key)] *)
Fixpoint family_at (key : string) (m : list (string * GaugeMetricFamily))
  : option GaugeMetricFamily :=
  match m with
  | [] => None
  | (k, f) :: m' => if String.eqb k key then Some f else family_at key m'
  end.

(** The samples held by the family stored under [key]. *)
Definition samples_at (key : string) (st : state) : list Sample :=
  match family_at key (metrics st) with
  | Some f => samples f
  | None => []
  end.

(** The samples that a Metric Set (the families yielded by [collect]) holds
    for the metric called [nm]. *)
Definition samples_named (nm : string) (fams : list GaugeMetricFamily)
  : list Sample :=
  flat_map samples (List.filter (fun f => String.eqb (name f) nm) fams).

(** The dictionary with every family emptied of its samples. *)
Definition schema (m : list (string * GaugeMetricFamily))
  : list (string * GaugeMetricFamily) :=
  map (fun kf =>
         (fst kf,
          new_family (name (snd kf)) (documentation (snd kf))
            (labelnames (snd kf)))) m.

(** The states a collector can be in: [self.metrics] holds the families that
    [__init__] created, each with the samples added to it since. *)
Definition collector_state (st : state) : Prop :=
  schema (metrics st) = metrics_init.

(** [m], run from [st], returns normally; it sends the requests [rqs] and adds
    the samples [new key] to the family under each [key]. *)
Definition emits (m : M unit) (st : state) (new : string -> list Sample)
    (rqs : list request) : Prop :=
  exists st',
    m st = (Ok tt, st') /\
    collector_state st' /\
    sent st' = sent st ++ rqs /\
    forall key, samples_at key st' = samples_at key st ++ new key.

(** [m] leaves the request log alone. *)
Definition silent {A} (m : M A) : Prop :=
  forall st, sent (snd (m st)) = sent st.

(** [m1] and [m2] cannot be told apart by their results or by what they do to
    [self.metrics], whatever the request logs they start from. *)
Definition alike {A} (m1 m2 : M A) : Prop :=
  forall st1 st2,
    metrics st1 = metrics st2 ->
    fst (m1 st1) = fst (m2 st2) /\
    metrics (snd (m1 st1)) = metrics (snd (m2 st2)).

(** The sample with no labels. *)
Definition plain (nm : string) (value : pyval) : Sample :=
  mkSample nm [] value.

(** The sample with one label. *)
Definition labelled (nm label : string) (who value : pyval) : Sample :=
  mkSample nm [(label, who)] value.

(** [d.get(key, default)] on a JSON object, as a value. *)
Definition field (d : gmap string pyval) (key : string) (dflt : pyval) : pyval :=
  default dflt (d !! key).

(** The [node_info] sample of a node. *)
Definition node_info (repr : pyval -> string) (d : gmap string pyval) : Sample :=
  mkSample "node_info"
    [ ("node_name", PStr (str repr (field d "name" (PStr "unknown"))));
      ("address", PStr (str repr (field d "address" (PStr "unknown"))));
      ("port", PStr (str repr (field d "port" (PStr "unknown"))));
      ("api_port", PStr (str repr (field d "api_port" (PStr "unknown"))));
      ("xray_version", PStr (str repr (field d "xray_version" (PStr "unknown"))));
      ("status", PStr (str repr (field d "status" (PStr "unknown")))) ]
    (PInt 1).

(** What one [add_metric] adds: the sample [s] under [key], nothing
    elsewhere. *)
Definition only (key : string) (s : Sample) : string -> list Sample :=
  fun k => if String.eqb k key then [s] else [].

(** What the node pass adds for one node. *)
Definition node_samples (repr : pyval -> string) (d : gmap string pyval)
  : string -> list Sample :=
  fun k =>
    only "node_usage_coefficient"
      (labelled "node_usage_coefficient" "node_name"
         (field d "name" (PStr "unknown"))
         (field d "usage_coefficient" (PInt 0))) k ++
    only "node_address" (node_info repr d) k.

(** What the usage pass adds for one usage record. *)
Definition usage_samples (d : gmap string pyval) : string -> list Sample :=
  fun k =>
    only "node_uplink"
      (labelled "node_uplink_bytes" "node_name"
         (field d "node_name" (PStr "unknown")) (field d "uplink" (PInt 0))) k ++
    only "node_downlink"
      (labelled "node_downlink_bytes" "node_name"
         (field d "node_name" (PStr "unknown")) (field d "downlink" (PInt 0))) k.

(** What the system pass adds. *)
Definition system_samples (d : gmap string pyval) : string -> list Sample :=
  fun k =>
    only "system_version" (plain "system_version" (PInt 1)) k ++
    only "system_mem_total"
      (plain "system_memory_total_bytes" (field d "mem_total" (PInt 0))) k ++
    only "system_mem_used"
      (plain "system_memory_used_bytes" (field d "mem_used" (PInt 0))) k ++
    only "system_cpu_usage"
      (plain "system_cpu_usage_percent" (field d "cpu_usage" (PInt 0))) k ++
    only "system_total_users"
      (plain "system_total_users" (field d "total_user" (PInt 0))) k ++
    only "system_active_users"
      (plain "system_active_users" (field d "users_active" (PInt 0))) k ++
    only "system_incoming_bandwidth"
      (plain "system_incoming_bandwidth_bytes"
         (field d "incoming_bandwidth" (PInt 0))) k ++
    only "system_outgoing_bandwidth"
      (plain "system_outgoing_bandwidth_bytes"
         (field d "outgoing_bandwidth" (PInt 0))) k.

(** What the user pass adds for one user. *)
Definition user_samples (d : gmap string pyval) : string -> list Sample :=
  only "user_traffic"
    (labelled "user_lifetime_used_traffic_bytes" "username"
       (field d "username" (PStr "unknown"))
       (field d "lifetime_used_traffic" (PInt 0))).

(** What a loop adds over the records [ds]. *)
Definition each (f : gmap string pyval -> string -> list Sample)
    (ds : list (gmap string pyval)) : string -> list Sample :=
  fun k => flat_map (fun d => f d k) ds.

(** Upstream answers that are well formed: every fetch is answered with a 2xx
    status and a JSON body of the shape the control plane documents.  The
    usage and user records come wrapped in an object, under ["usages"] and
    ["users"]; [started] is what [int] makes of the core's status field. *)
Record well_formed (repr : pyval -> string) (int_of_str : string -> option Z)
    (self : MarzbanAPI) (srv : control_plane)
    (nodes usages : list (gmap string pyval)) (system : gmap string pyval)
    (started : pyval) (users : list (gmap string pyval)) : Prop := {
  wf_nodes :
    success_body (srv (get_request repr self "/nodes")) =
    Some (PList (map PDict nodes));
  wf_usages :
    exists d,
      success_body (srv (get_request repr self "/nodes/usage")) = Some (PDict d) /\
      field d "usages" (PList []) = PList (map PDict usages);
  wf_system :
    success_body (srv (get_request repr self "/system")) = Some (PDict system);
  wf_core :
    exists d,
      success_body (srv (get_request repr self "/core")) = Some (PDict d) /\
      int int_of_str (field d "started" (PBool false)) = ret started;
  wf_users :
    exists d,
      success_body (srv (get_request repr self "/users")) = Some (PDict d) /\
      field d "users" (PList []) = PList (map PDict users)
}.

(** What one scrape adds on well-formed answers. *)
Definition scrape_samples (repr : pyval -> string)
    (nodes usages : list (gmap string pyval)) (system : gmap string pyval)
    (started : pyval) (users : list (gmap string pyval))
  : string -> list Sample :=
  fun k =>
    each (node_samples repr) nodes k ++
    each usage_samples usages k ++
    system_samples system k ++
    only "core_started" (plain "core_started" started) k ++
    only "total_users"
      (plain "total_users" (PInt (Z.of_nat (length users)))) k ++
    each user_samples users k.

(** [r] is an exception, not a value. *)
Definition failed {A} (r : result A) : Prop :=
  match r with
  | Raise _ => True
  | Ok _ => False
  end.

(** [m] raises from every state. *)
Definition aborts {A} (m : M A) : Prop :=
  forall st, failed (fst (m st)).

(** ** Fixtures *)

(** The two text builtins on the values the fixtures hold: [repr] of [None],
    of a [bool] and of an [int], and [int] of a plain decimal numeral. *)
Definition repr_scalar (v : pyval) : string :=
  match v with
  | PNone => "None"
  | PBool true => "True"
  | PBool false => "False"
  | PInt n => NilZero.string_of_int (Z.to_int n)
  | _ => "?"
  end.

Definition int_of_decimal (s : string) : option Z :=
  option_map Z.of_int (NilZero.int_of_string s).

(** A JSON object written as its list of members. *)
Definition obj (members : list (string * pyval)) : gmap string pyval :=
  list_to_map members.

(** A [200 OK] answer with a JSON body. *)
Definition answer (v : pyval) : outcome :=
  Answered (mkResponse 200 (Some v)).

(** A control plane that answers the five GETs as given and has nothing
    else. *)
Definition serving (nodes usage system core users : outcome) : control_plane :=
  fun rq =>
    match req_method rq with
    | POST => Answered (mkResponse 404 None)
    | GET =>
        if String.eqb (req_path rq) "/nodes" then nodes
        else if String.eqb (req_path rq) "/nodes/usage" then usage
        else if String.eqb (req_path rq) "/system" then system
        else if String.eqb (req_path rq) "/core" then core
        else if String.eqb (req_path rq) "/users" then users
        else Answered (mkResponse 404 None)
    end.

Definition node_n1 : gmap string pyval :=
  obj [ ("name", PStr "n1"); ("usage_coefficient", PFloat (5 # 2));
        ("address", PStr "1.2.3.4"); ("port", PInt 443);
        ("api_port", PInt 62050); ("xray_version", PStr "1.8");
        ("status", PStr "connected") ].

Definition usage_n1 : gmap string pyval :=
  obj [ ("node_name", PStr "n1"); ("uplink", PInt 100); ("downlink", PInt 200) ].

Definition system_fixture : gmap string pyval :=
  obj [ ("mem_total", PInt 1000); ("mem_used", PInt 500);
        ("cpu_usage", PInt 10); ("total_user", PInt 5);
        ("users_active", PInt 3); ("incoming_bandwidth", PInt 700);
        ("outgoing_bandwidth", PInt 300) ].

Definition core_fixture : gmap string pyval :=
  obj [ ("started", PBool true) ].

Definition user_alice : gmap string pyval :=
  obj [ ("username", PStr "alice"); ("lifetime_used_traffic", PInt 12345) ].

(** The fixtures as the control plane sends them: the usage and user records
    wrapped under ["usages"] and ["users"]. *)
Definition wrapped_fixtures : control_plane :=
  serving
    (answer (PList [PDict node_n1]))
    (answer (PDict (obj [("usages", PList [PDict usage_n1])])))
    (answer (PDict system_fixture))
    (answer (PDict core_fixture))
    (answer (PDict (obj [("users", PList [PDict user_alice])]))).

(** The fixtures handed over as they are written, the usage and user records
    as bare lists. *)
Definition bare_fixtures : control_plane :=
  serving
    (answer (PList [PDict node_n1]))
    (answer (PList [PDict usage_n1]))
    (answer (PDict system_fixture))
    (answer (PDict core_fixture))
    (answer (PList [PDict user_alice])).

(** As [wrapped_fixtures], with [/nodes/usage] answering [500]. *)
Definition usage_down : control_plane :=
  serving
    (answer (PList [PDict node_n1]))
    (Answered (mkResponse 500 None))
    (answer (PDict system_fixture))
    (answer (PDict core_fixture))
    (answer (PDict (obj [("users", PList [PDict user_alice])]))).

(** A control plane whose [/nodes] cannot be reached. *)
Definition nodes_unreachable : control_plane :=
  serving
    (Failed "connection refused")
    (answer (PDict (obj [("usages", PList [PDict usage_n1])])))
    (answer (PDict system_fixture))
    (answer (PDict core_fixture))
    (answer (PDict (obj [("users", PList [PDict user_alice])]))).

(** A control plane that answers the credential exchange with [401] and a
    body that holds a token all the same, and the five GETs with the
    fixtures. *)
Definition token_with_401 : control_plane :=
  fun rq =>
    match req_method rq with
    | POST =>
        Answered (mkResponse 401
                    (Some (PDict (obj [("access_token", PStr "t0k")]))))
    | GET => wrapped_fixtures rq
    end.

(** A control plane that refuses the credentials the way Marzban does. *)
Definition credentials_refused : control_plane :=
  fun _ =>
    Answered (mkResponse 401
                (Some (PDict (obj [("detail", PStr "Incorrect username or password")])))).

Definition env : settings :=
  mkSettings (Some "https://panel.example") (Some "admin") (Some "secret").

Definition api0 : MarzbanAPI := mkMarzbanAPI (PStr "t0k").

(** A collector just built, nothing sent yet. *)
Definition fresh : state := mkState metrics_init [].

(** The process before [exporter.py] is loaded. *)
Definition blank : state := mkState [] [].

(** A control plane whose every object is empty and whose one node has no
    field. *)
Definition empty_objects : control_plane :=
  serving
    (answer (PList [PDict ∅]))
    (answer (PDict ∅))
    (answer (PDict ∅))
    (answer (PDict ∅))
    (answer (PDict ∅)).

(** What a scrape serves for the metric called [nm]; [None] when the scrape
    raised and nothing is served. *)
Definition served (r : result (list GaugeMetricFamily)) (nm : string)
  : option (list Sample) :=
  match r with
  | Ok fams => Some (samples_named nm fams)
  | Raise _ => None
  end.

(** One collector, scraped with the fixtures. *)
Definition scrape (srv : control_plane) : M (list GaugeMetricFamily) :=
  collect repr_scalar int_of_decimal api0 srv.

(** The first and the second scrape of a collector just built. *)
Definition first_scrape : result (list GaugeMetricFamily) * state :=
  scrape wrapped_fixtures fresh.

Definition second_scrape : result (list GaugeMetricFamily) * state :=
  scrape wrapped_fixtures (snd first_scrape).

(** A scrape during which [/nodes/usage] is down, and the scrape after it,
    when the control plane is well again. *)
Definition aborted_scrape : result (list GaugeMetricFamily) * state :=
  scrape usage_down fresh.

Definition scrape_after_abort : result (list GaugeMetricFamily) * state :=
  scrape wrapped_fixtures (snd aborted_scrape).

(** ** Vocabulary of the further properties *)

(** [m] keeps [P]: if [P] holds before [m] runs it holds after, whether [m]
    returns or raises. *)
Definition preserves {A} (P : state -> Prop) (m : M A) : Prop :=
  forall st, P st -> P (snd (m st)).

(** [st'] is a collector state that holds, family by family, the samples of
    [st] and after them possibly more. *)
Definition extends (st st' : state) : Prop :=
  collector_state st' /\
  forall key, exists new, samples_at key st' = samples_at key st ++ new.

(** Every sample of the family bears the family's name and has exactly the
    family's label names, in order. *)
Definition tidy_family (f : GaugeMetricFamily) : Prop :=
  Forall (fun s =>
            sample_name s = name f /\
            map fst (sample_labels s) = labelnames f) (samples f).

(** A collector state all of whose families are tidy. *)
Definition tidy (st : state) : Prop :=
  collector_state st /\ Forall (fun kf => tidy_family (snd kf)) (metrics st).

(** [n] scrapes whose Metric Sets have been served, and then one more: what
    the scrape number [n + 1] of a collector returns. *)
Fixpoint rescrape (repr : pyval -> string) (int_of_str : string -> option Z)
    (self : MarzbanAPI) (srv : control_plane) (n : nat)
  : M (list GaugeMetricFamily) :=
  match n with
  | O => collect repr int_of_str self srv
  | S n' =>
      collect repr int_of_str self srv ;;
      rescrape repr int_of_str self srv n'
  end.

(** The GETs a scrape may send: to one of the five paths, with the token the
    client was built with as bearer. *)
Definition scrape_request (repr : pyval -> string) (self : MarzbanAPI)
    (rq : request) : Prop :=
  req_method rq = GET /\
  In (req_path rq) endpoints /\
  req_authorization rq = Some ("Bearer " ++ str repr (token self))%string /\
  req_form rq = [].

(** The names of the fifteen families, in the order of [self.metrics]. *)
Definition family_names : list string :=
  [ "node_usage_coefficient"; "node_info"; "node_uplink_bytes";
    "node_downlink_bytes"; "system_version"; "system_memory_total_bytes";
    "system_memory_used_bytes"; "system_cpu_usage_percent";
    "system_total_users"; "system_active_users";
    "system_incoming_bandwidth_bytes"; "system_outgoing_bandwidth_bytes";
    "core_started"; "total_users"; "user_lifetime_used_traffic_bytes" ].

(** A control plane whose [/nodes] list has a number where the second node
    should be. *)
Definition second_node_is_a_number : control_plane :=
  serving
    (answer (PList [PDict node_n1; PInt 7; PDict node_n1]))
    (answer (PDict (obj [("usages", PList [PDict usage_n1])])))
    (answer (PDict system_fixture))
    (answer (PDict core_fixture))
    (answer (PDict (obj [("users", PList [PDict user_alice])]))).

(** A control plane whose [/nodes] answers with the empty object. *)
Definition nodes_is_empty_object : control_plane :=
  serving
    (answer (PDict ∅))
    (answer (PDict (obj [("usages", PList [PDict usage_n1])])))
    (answer (PDict system_fixture))
    (answer (PDict core_fixture))
    (answer (PDict (obj [("users", PList [PDict user_alice])]))).

(** A control plane whose user list has [null] where the second user should
    be. *)
Definition second_user_is_null : control_plane :=
  serving
    (answer (PList [PDict node_n1]))
    (answer (PDict (obj [("usages", PList [PDict usage_n1])])))
    (answer (PDict system_fixture))
    (answer (PDict core_fixture))
    (answer (PDict (obj [("users", PList [PDict user_alice; PNone])]))).

(** A control plane whose [/system] answers with a list. *)
Definition system_is_a_list : control_plane :=
  serving
    (answer (PList [PDict node_n1]))
    (answer (PDict (obj [("usages", PList [PDict usage_n1])])))
    (answer (PList []))
    (answer (PDict core_fixture))
    (answer (PDict (obj [("users", PList [PDict user_alice])]))).

(** The five passes, in the order in which [collect] runs them. *)
Definition passes (repr : pyval -> string) (int_of_str : string -> option Z)
    (self : MarzbanAPI) (srv : control_plane) : list (M unit) :=
  [ _collect_nodes_metrics repr self srv;
    _collect_nodes_usage_metrics repr self srv;
    _collect_system_metrics repr self srv;
    _collect_core_metrics repr int_of_str self srv;
    _collect_users_metrics repr self srv ].

(** The state in which the passes [ps], run one after the other from [st],
    leave the collector when every one of them returns; [None] when one of
    them raises. *)
Fixpoint returned (ps : list (M unit)) (st : state) : option state :=
  match ps with
  | [] => Some st
  | p :: ps' =>
      match p st with
      | (Ok _, st1) => returned ps' st1
      | (Raise _, _) => None
      end
  end.

(** * Properties *)

(** ** The dictionary of families *)

Lemma family_at_schema key m :
  family_at key (schema m) =
  option_map (fun f => new_family (name f) (documentation f) (labelnames f))
    (family_at key m).
Proof.
  induction m as [|[k f] m IH]; simpl; [reflexivity|].
  destruct (String.eqb k key); [reflexivity|exact IH].
Qed.

Lemma metrics_update_family key g m f :
  family_at key m = Some f ->
  exists m',
    metrics_update key g m = Some m' /\
    forall k, family_at k m' =
              if String.eqb k key then Some (g f) else family_at k m.
Proof.
  induction m as [|[k0 f0] m IH]; simpl; [discriminate|].
  destruct (String.eqb_spec k0 key) as [->|Hne].
  - intros [= ->]. eexists; split; [reflexivity|].
    intros k; simpl.
    destruct (String.eqb_spec key k) as [->|Hk].
    + now rewrite String.eqb_refl.
    + destruct (String.eqb_spec k key); [congruence|reflexivity].
  - intros Hf. destruct (IH Hf) as (m' & -> & Hm'). simpl.
    eexists; split; [reflexivity|].
    intros k; simpl. rewrite Hm'.
    destruct (String.eqb_spec k0 k) as [->|Hk]; [|reflexivity].
    destruct (String.eqb_spec k key); [congruence|reflexivity].
Qed.

Lemma metrics_update_schema key g m m' :
  (forall f, name (g f) = name f /\ documentation (g f) = documentation f /\
             labelnames (g f) = labelnames f) ->
  metrics_update key g m = Some m' ->
  schema m' = schema m.
Proof.
  intros Hg. revert m'.
  induction m as [|[k0 f0] m IH]; simpl; [discriminate|].
  intros m'. destruct (String.eqb k0 key).
  - intros [= <-]. simpl. destruct (Hg f0) as (-> & -> & ->). reflexivity.
  - destruct (metrics_update key g m) as [m1|]; simpl; [|discriminate].
    intros [= <-]. simpl. now rewrite (IH m1).
Qed.

(** ** The monad *)

Lemma emits_ext m st new new' rqs :
  emits m st new rqs ->
  (forall key, new key = new' key) ->
  emits m st new' rqs.
Proof.
  intros (st' & Hm & Hc & Hs & Hn) Hext.
  exists st'. repeat split; try assumption.
  intros key. rewrite <- Hext. apply Hn.
Qed.

Lemma emits_ret st :
  collector_state st ->
  emits (ret tt) st (fun _ => []) [].
Proof.
  intros Hc. exists st. repeat split; try assumption.
  - now rewrite app_nil_r.
  - intros key. now rewrite app_nil_r.
Qed.

Lemma emits_bind (m k : M unit) st n1 r1 n2 r2 :
  emits m st n1 r1 ->
  (forall st', collector_state st' -> emits k st' n2 r2) ->
  emits (m ;; k) st (fun key => n1 key ++ n2 key) (r1 ++ r2).
Proof.
  intros (st1 & Hm & Hc1 & Hs1 & Hn1) Hk.
  destruct (Hk st1 Hc1) as (st2 & Hk2 & Hc2 & Hs2 & Hn2).
  exists st2. unfold bind. rewrite Hm. repeat split; try assumption.
  - rewrite Hs2, Hs1. now rewrite <- app_assoc.
  - intros key. rewrite Hn2, Hn1. now rewrite <- app_assoc.
Qed.

Lemma add_metric_emits key labels value st f0 :
  collector_state st ->
  family_at key metrics_init = Some f0 ->
  emits (add_metric key labels value) st
    (fun k => if String.eqb k key
              then [mkSample (name f0) (combine (labelnames f0) labels) value]
              else [])
    [].
Proof.
  intros Hc Hk.
  assert (Hf : exists f, family_at key (metrics st) = Some f /\
                         name f = name f0 /\ labelnames f = labelnames f0).
  { unfold collector_state in Hc. rewrite <- Hc, family_at_schema in Hk.
    destruct (family_at key (metrics st)) as [f|]; [|discriminate].
    injection Hk as <-. now exists f. }
  destruct Hf as (f & Hf & Hname & Hlabels).
  destruct (metrics_update_family key
              (fun f => family_add_metric f labels value) _ _ Hf)
    as (m' & Hup & Hm').
  exists (mkState m' (sent st)). unfold add_metric. rewrite Hup.
  repeat split.
  - unfold collector_state; simpl.
    rewrite (metrics_update_schema key
               (fun f => family_add_metric f labels value) (metrics st) m');
      [exact Hc | now intros f' | exact Hup].
  - simpl. now rewrite app_nil_r.
  - intros k. unfold samples_at; simpl. rewrite Hm'.
    destruct (String.eqb_spec k key) as [->|Hne].
    + rewrite Hf. simpl. now rewrite Hname, Hlabels.
    + now rewrite app_nil_r.
Qed.

Lemma for_each_emits body f ds :
  (forall d st, collector_state st -> emits (body (PDict d)) st (f d) []) ->
  forall st, collector_state st ->
  emits (for_each (map PDict ds) body) st (each f ds) [].
Proof.
  intros Hbody. induction ds as [|d ds IH]; intros st Hc.
  - apply emits_ret, Hc.
  - change (emits (body (PDict d) ;; for_each (map PDict ds) body) st
              (fun k => f d k ++ each f ds k) ([] ++ [])).
    apply emits_bind; [apply Hbody, Hc | exact IH].
Qed.

(** ** The client *)

Section Client.

Context (repr : pyval -> string).

Lemma _fetch_cases self srv endpoint st :
  _fetch repr self srv endpoint st =
  (match srv (get_request repr self endpoint) with
   | Failed detail => Raise (Exception_fetching endpoint (TransportError detail))
   | Answered r =>
       if is_success r then
         match body r with
         | Some v => Ok v
         | None => Raise JSONDecodeError
         end
       else Raise (Exception_fetching endpoint (HTTPStatusError (status_code r)))
   end,
   log (get_request repr self endpoint) st).
Proof.
  unfold _fetch, try_except_HTTPError, bind, client_get, raise_for_status,
    json, get_request, log, raise, ret.
  destruct (srv _) as [r|detail]; [|reflexivity].
  destruct (is_success r); [|reflexivity].
  destruct (body r); reflexivity.
Qed.

Lemma _fetch_success self srv endpoint st v :
  success_body (srv (get_request repr self endpoint)) = Some v ->
  _fetch repr self srv endpoint st =
  (Ok v, log (get_request repr self endpoint) st).
Proof.
  intros H. rewrite _fetch_cases. unfold success_body in H.
  destruct (srv _) as [r|]; [|discriminate].
  destruct (is_success r); [|discriminate]. now rewrite H.
Qed.

Lemma _fetch_failure self srv endpoint st cause :
  failure_of (srv (get_request repr self endpoint)) = Some cause ->
  _fetch repr self srv endpoint st =
  (Raise (Exception_fetching endpoint cause),
   log (get_request repr self endpoint) st).
Proof.
  intros H. rewrite _fetch_cases. unfold failure_of in H.
  destruct (srv _) as [r|detail].
  - destruct (is_success r); [discriminate|]. now injection H as <-.
  - now injection H as <-.
Qed.

Lemma emits_after_fetch self srv endpoint (k : pyval -> M unit) st v new rqs :
  success_body (srv (get_request repr self endpoint)) = Some v ->
  (forall st', collector_state st' -> emits (k v) st' new rqs) ->
  collector_state st ->
  emits (x <- _fetch repr self srv endpoint ;; k x) st new
    (get_request repr self endpoint :: rqs).
Proof.
  intros Hv Hk Hc.
  destruct (Hk (log (get_request repr self endpoint) st) Hc)
    as (st' & Hrun & Hc' & Hs & Hn).
  exists st'. unfold bind. rewrite (_fetch_success _ _ _ _ _ Hv).
  repeat split; try assumption.
  rewrite Hs. simpl. now rewrite <- app_assoc.
Qed.

End Client.

(** ** The five passes *)

Lemma emits_bind_silent (m k : M unit) st n1 n2 :
  emits m st n1 [] ->
  (forall st', collector_state st' -> emits k st' n2 []) ->
  emits (m ;; k) st (fun key => n1 key ++ n2 key) [].
Proof. intros Hm Hk. exact (emits_bind m k st n1 [] n2 [] Hm Hk). Qed.

Lemma emits_bind_ret {A} (v : A) (k : A -> M unit) st new rqs :
  emits (k v) st new rqs ->
  emits (x <- ret v ;; k x) st new rqs.
Proof. intros H. exact H. Qed.

Ltac emit_step :=
  lazymatch goal with
  | |- emits (bind (add_metric _ _ _) _) _ _ _ =>
      eapply emits_bind_silent;
      [ eapply add_metric_emits; [assumption | reflexivity] | intros ? ? ]
  | |- emits (bind (ret _) _) _ _ _ =>
      apply emits_bind_ret
  | |- emits (add_metric _ _ _) _ _ _ =>
      eapply add_metric_emits; [assumption | reflexivity]
  end.

Section Passes.

Context (repr : pyval -> string) (int_of_str : string -> option Z).

Lemma get_dict d key dflt : get (PDict d) key dflt = ret (field d key dflt).
Proof. reflexivity. Qed.

Lemma system_pass_emits self srv st d :
  collector_state st ->
  success_body (srv (get_request repr self "/system")) = Some (PDict d) ->
  emits (_collect_system_metrics repr self srv) st (system_samples d)
    [get_request repr self "/system"].
Proof.
  intros Hc Hv. unfold _collect_system_metrics, fetch_system_data.
  eapply emits_after_fetch; [exact Hv | | exact Hc].
  clear st Hc. intros st Hc. cbn [get].
  eapply emits_ext; [repeat emit_step | intros key; reflexivity].
Qed.

Lemma nodes_pass_emits self srv st ds :
  collector_state st ->
  success_body (srv (get_request repr self "/nodes")) =
    Some (PList (map PDict ds)) ->
  emits (_collect_nodes_metrics repr self srv) st (each (node_samples repr) ds)
    [get_request repr self "/nodes"].
Proof.
  intros Hc Hv. unfold _collect_nodes_metrics, fetch_nodes_data.
  eapply emits_after_fetch; [exact Hv | | exact Hc].
  clear st Hc. intros st Hc.
  change (for_in (PList (map PDict ds)) ?body) with (for_each (map PDict ds) body).
  apply for_each_emits; [|exact Hc].
  clear st Hc. intros d st Hc. cbn [get].
  eapply emits_ext; [repeat emit_step | intros key; reflexivity].
Qed.

Lemma usage_pass_emits self srv st d ds :
  collector_state st ->
  success_body (srv (get_request repr self "/nodes/usage")) = Some (PDict d) ->
  field d "usages" (PList []) = PList (map PDict ds) ->
  emits (_collect_nodes_usage_metrics repr self srv) st (each usage_samples ds)
    [get_request repr self "/nodes/usage"].
Proof.
  intros Hc Hv Hd. unfold _collect_nodes_usage_metrics, fetch_nodes_usage_data.
  eapply emits_after_fetch; [exact Hv | | exact Hc].
  clear st Hc. intros st Hc. rewrite get_dict. apply emits_bind_ret. rewrite Hd.
  change (for_in (PList (map PDict ds)) ?body) with (for_each (map PDict ds) body).
  apply for_each_emits; [|exact Hc].
  clear st Hc. intros u st Hc. cbn [get].
  eapply emits_ext; [repeat emit_step | intros key; reflexivity].
Qed.

Lemma core_pass_emits self srv st d started :
  collector_state st ->
  success_body (srv (get_request repr self "/core")) = Some (PDict d) ->
  int int_of_str (field d "started" (PBool false)) = ret started ->
  emits (_collect_core_metrics repr int_of_str self srv) st
    (only "core_started" (plain "core_started" started))
    [get_request repr self "/core"].
Proof.
  intros Hc Hv Hd. unfold _collect_core_metrics, fetch_core_data.
  eapply emits_after_fetch; [exact Hv | | exact Hc].
  clear st Hc. intros st Hc. rewrite get_dict. apply emits_bind_ret. rewrite Hd.
  eapply emits_ext; [repeat emit_step | intros key; reflexivity].
Qed.

Lemma users_pass_emits self srv st d ds :
  collector_state st ->
  success_body (srv (get_request repr self "/users")) = Some (PDict d) ->
  field d "users" (PList []) = PList (map PDict ds) ->
  emits (_collect_users_metrics repr self srv) st
    (fun k =>
       only "total_users"
         (plain "total_users" (PInt (Z.of_nat (length ds)))) k ++
       each user_samples ds k)
    [get_request repr self "/users"].
Proof.
  intros Hc Hv Hd. unfold _collect_users_metrics, fetch_users_data.
  eapply emits_after_fetch; [exact Hv | | exact Hc].
  clear st Hc. intros st Hc. rewrite get_dict. apply emits_bind_ret. rewrite Hd.
  cbn [len]. rewrite length_map. apply emits_bind_ret.
  eapply emits_bind_silent.
  - eapply emits_ext;
      [eapply add_metric_emits; [assumption | reflexivity]
      | intros key; reflexivity].
  - clear st Hc. intros st Hc.
    change (for_in (PList (map PDict ds)) ?body) with (for_each (map PDict ds) body).
    apply for_each_emits; [|exact Hc].
    clear st Hc. intros u st Hc. cbn [get].
    eapply emits_ext; [repeat emit_step | intros key; reflexivity].
Qed.

Lemma emits_then {A} (m : M unit) (k : M A) st new rqs :
  emits m st new rqs ->
  exists st',
    (m ;; k) st = k st' /\
    collector_state st' /\
    sent st' = sent st ++ rqs /\
    forall key, samples_at key st' = samples_at key st ++ new key.
Proof.
  intros (st' & Hm & H). exists st'. split; [|exact H].
  unfold bind. now rewrite Hm.
Qed.

(** On well-formed answers a scrape returns the families of [self.metrics],
    having sent the five requests in order and added [scrape_samples] to what
    the families already held. *)
Lemma collect_scrape self srv st nodes usages system started users :
  collector_state st ->
  well_formed repr int_of_str self srv nodes usages system started users ->
  exists st',
    collect repr int_of_str self srv st = (Ok (map snd (metrics st')), st') /\
    collector_state st' /\
    sent st' = sent st ++ map (get_request repr self) endpoints /\
    forall key,
      samples_at key st' =
      samples_at key st ++ scrape_samples repr nodes usages system started users key.
Proof.
  intros Hc [Hn (du & Hu & Hdu) Hs (dc & Hco & Hdc) (dus & Hus & Hdus)].
  unfold collect.
  destruct (emits_then _
              (_collect_nodes_usage_metrics repr self srv ;;
               _collect_system_metrics repr self srv ;;
               _collect_core_metrics repr int_of_str self srv ;;
               _collect_users_metrics repr self srv ;;
               metrics_values) _ _ _
              (nodes_pass_emits self srv st nodes Hc Hn))
    as (st1 & -> & Hc1 & Hs1 & Hn1).
  destruct (emits_then _
              (_collect_system_metrics repr self srv ;;
               _collect_core_metrics repr int_of_str self srv ;;
               _collect_users_metrics repr self srv ;;
               metrics_values) _ _ _
              (usage_pass_emits self srv st1 du usages Hc1 Hu Hdu))
    as (st2 & -> & Hc2 & Hs2 & Hn2).
  destruct (emits_then _
              (_collect_core_metrics repr int_of_str self srv ;;
               _collect_users_metrics repr self srv ;;
               metrics_values) _ _ _
              (system_pass_emits self srv st2 system Hc2 Hs))
    as (st3 & -> & Hc3 & Hs3 & Hn3).
  destruct (emits_then _
              (_collect_users_metrics repr self srv ;; metrics_values) _ _ _
              (core_pass_emits self srv st3 dc started Hc3 Hco Hdc))
    as (st4 & -> & Hc4 & Hs4 & Hn4).
  destruct (emits_then _ metrics_values _ _ _
              (users_pass_emits self srv st4 dus users Hc4 Hus Hdus))
    as (st5 & -> & Hc5 & Hs5 & Hn5).
  exists st5. repeat split; try assumption; try reflexivity.
  - rewrite Hs5, Hs4, Hs3, Hs2, Hs1. simpl. now rewrite <- !app_assoc.
  - intros key. rewrite Hn5, Hn4, Hn3, Hn2, Hn1. unfold scrape_samples.
    now rewrite <- !app_assoc.
Qed.

End Passes.

(** ** The Metric Set *)

Lemma collector_state_names st :
  collector_state st ->
  map (fun kf => (fst kf, name (snd kf))) (metrics st) =
  map (fun kf => (fst kf, name (snd kf))) metrics_init.
Proof.
  unfold collector_state. intros <-. unfold schema. now rewrite map_map.
Qed.

Lemma family_at_In key m f :
  family_at key m = Some f -> In (key, f) m.
Proof.
  induction m as [|[k0 f0] m IH]; simpl; [discriminate|].
  destruct (String.eqb_spec k0 key) as [->|_].
  - intros [= ->]. now left.
  - intros H. right. now apply IH.
Qed.

Lemma samples_named_hit nm f fams :
  name f = nm ->
  samples_named nm (f :: fams) = samples f ++ samples_named nm fams.
Proof.
  intros <-. unfold samples_named. simpl. now rewrite String.eqb_refl.
Qed.

Lemma samples_named_miss nm f fams :
  name f <> nm ->
  samples_named nm (f :: fams) = samples_named nm fams.
Proof.
  intros H. unfold samples_named. simpl.
  now destruct (String.eqb_spec (name f) nm).
Qed.

Ltac find_family :=
  repeat first
    [ rewrite samples_named_hit by eassumption
    | rewrite samples_named_miss
        by (match goal with H : name ?f = _ |- name ?f <> _ =>
              rewrite H; discriminate end) ].

(** The samples served under a metric name are the samples of the family
    stored under the matching key: the fifteen names are distinct. *)
Lemma samples_named_values st key f0 :
  collector_state st ->
  family_at key metrics_init = Some f0 ->
  samples_named (name f0) (map snd (metrics st)) = samples_at key st.
Proof.
  intros Hc Hk. apply collector_state_names in Hc. apply family_at_In in Hk.
  unfold samples_at. destruct st as [m s].
  cbn [metrics] in *.
  do 15 (destruct m as [|[? ?] m]; [discriminate|]).
  destruct m; [|discriminate].
  injection Hc as ?. subst.
  cbn [map snd].
  repeat (destruct Hk as [[= <- <-]|Hk];
          [ cbn [name new_family]; find_family;
            unfold samples_named; simpl; now rewrite app_nil_r |]).
  destruct Hk.
Qed.

Lemma samples_named_key st key nm :
  collector_state st ->
  option_map name (family_at key metrics_init) = Some nm ->
  samples_named nm (map snd (metrics st)) = samples_at key st.
Proof.
  intros Hc Hk.
  destruct (family_at key metrics_init) as [f0|] eqn:Hf; [|discriminate].
  injection Hk as <-. now apply samples_named_values.
Qed.

Lemma each_none f ds key :
  (forall d, f d key = []) -> each f ds key = [].
Proof.
  intros H. unfold each. induction ds as [|d ds IH]; simpl; [reflexivity|].
  now rewrite H, IH.
Qed.

Lemma each_one f g ds key :
  (forall d, f d key = [g d]) -> each f ds key = map g ds.
Proof.
  intros H. unfold each. induction ds as [|d ds IH]; simpl; [reflexivity|].
  now rewrite H, IH.
Qed.

Lemma collector_state_init s : collector_state (mkState metrics_init s).
Proof. reflexivity. Qed.

(** ** What a computation leaves alone *)

Lemma silent_ret {A} (a : A) : silent (ret a).
Proof. now intros st. Qed.

Lemma silent_raise {A} e : silent (@raise A e).
Proof. now intros st. Qed.

Lemma silent_lift {A} (r : result A) : silent (lift r).
Proof. now intros st. Qed.

Lemma silent_bind {A B} (m : M A) (k : A -> M B) :
  silent m -> (forall a, silent (k a)) -> silent (bind m k).
Proof.
  intros Hm Hk st. unfold bind. specialize (Hm st).
  destruct (m st) as [[a|e] st1]; simpl in *; [|exact Hm].
  now rewrite Hk.
Qed.

Lemma silent_for_each xs body :
  (forall x, silent (body x)) -> silent (for_each xs body).
Proof.
  intros Hb. induction xs as [|x xs IH]; simpl.
  - apply silent_ret.
  - apply silent_bind; [apply Hb | intros _; exact IH].
Qed.

Lemma silent_for_in v body :
  (forall x, silent (body x)) -> silent (for_in v body).
Proof.
  intros Hb. apply silent_bind; [apply silent_lift|].
  intros xs. now apply silent_for_each.
Qed.

Lemma silent_get v key dflt : silent (get v key dflt).
Proof. destruct v; first [apply silent_ret | apply silent_raise]. Qed.

Lemma silent_len v : silent (len v).
Proof. destruct v; first [apply silent_ret | apply silent_raise]. Qed.

Lemma silent_int int_of_str v : silent (int int_of_str v).
Proof.
  destruct v; simpl; try first [apply silent_ret | apply silent_raise].
  destruct (int_of_str s); first [apply silent_ret | apply silent_raise].
Qed.

Lemma silent_add_metric key labels value : silent (add_metric key labels value).
Proof.
  intros st. unfold add_metric. now destruct (metrics_update _ _ _).
Qed.

Lemma silent_metrics_values : silent metrics_values.
Proof. now intros st. Qed.

Ltac silence :=
  repeat first
    [ apply silent_ret | apply silent_raise | apply silent_get
    | apply silent_len | apply silent_int | apply silent_add_metric
    | apply silent_for_in; intros ?
    | apply silent_bind; [|intros ?] ].

(** A fetch followed by work that sends nothing: one request goes out,
    whatever the answer. *)
Lemma fetch_then_silent {A} repr self srv endpoint (k : pyval -> M A) st :
  (forall x, silent (k x)) ->
  sent (snd ((x <- _fetch repr self srv endpoint ;; k x) st)) =
  sent st ++ [get_request repr self endpoint].
Proof.
  intros Hk. unfold bind. rewrite _fetch_cases.
  destruct (srv _) as [r|detail]; [|reflexivity].
  destruct (is_success r); [|reflexivity].
  destruct (body r); [|reflexivity].
  now rewrite Hk.
Qed.

(** ** What a computation depends on *)

Lemma alike_ret {A} (a : A) : alike (ret a) (ret a).
Proof. now intros st1 st2 H. Qed.

Lemma alike_raise {A} e : alike (@raise A e) (raise e).
Proof. now intros st1 st2 H. Qed.

Lemma alike_lift {A} (r : result A) : alike (lift r) (lift r).
Proof. now intros st1 st2 H. Qed.

Lemma alike_bind {A B} (m1 m2 : M A) (k1 k2 : A -> M B) :
  alike m1 m2 -> (forall a, alike (k1 a) (k2 a)) ->
  alike (bind m1 k1) (bind m2 k2).
Proof.
  intros Hm Hk st1 st2 H. unfold bind.
  destruct (Hm st1 st2 H) as [Hr Hs].
  destruct (m1 st1) as [[a1|e1] s1], (m2 st2) as [[a2|e2] s2];
    simpl in *; try discriminate.
  - injection Hr as <-. now apply Hk.
  - injection Hr as <-. now split.
Qed.

Lemma alike_for_each xs b1 b2 :
  (forall x, alike (b1 x) (b2 x)) -> alike (for_each xs b1) (for_each xs b2).
Proof.
  intros Hb. induction xs as [|x xs IH]; simpl.
  - apply alike_ret.
  - apply alike_bind; [apply Hb | intros _; exact IH].
Qed.

Lemma alike_for_in v b1 b2 :
  (forall x, alike (b1 x) (b2 x)) -> alike (for_in v b1) (for_in v b2).
Proof.
  intros Hb. apply alike_bind; [apply alike_lift|].
  intros xs. now apply alike_for_each.
Qed.

Lemma alike_get v key dflt : alike (get v key dflt) (get v key dflt).
Proof. destruct v; first [apply alike_ret | apply alike_raise]. Qed.

Lemma alike_len v : alike (len v) (len v).
Proof. destruct v; first [apply alike_ret | apply alike_raise]. Qed.

Lemma alike_int int_of_str v : alike (int int_of_str v) (int int_of_str v).
Proof.
  destruct v; simpl; try first [apply alike_ret | apply alike_raise].
  destruct (int_of_str s); first [apply alike_ret | apply alike_raise].
Qed.

Lemma alike_add_metric key labels value :
  alike (add_metric key labels value) (add_metric key labels value).
Proof.
  intros st1 st2 H. unfold add_metric. rewrite H.
  now destruct (metrics_update _ _ _).
Qed.

Lemma alike_metrics_values : alike metrics_values metrics_values.
Proof. intros st1 st2 H. unfold metrics_values. simpl. now rewrite H. Qed.

Lemma alike_fetch repr self srv1 srv2 endpoint :
  srv1 (get_request repr self endpoint) = srv2 (get_request repr self endpoint) ->
  alike (_fetch repr self srv1 endpoint) (_fetch repr self srv2 endpoint).
Proof.
  intros Hsrv st1 st2 H. rewrite !_fetch_cases, Hsrv. now split.
Qed.

Ltac liken :=
  repeat first
    [ apply alike_ret | apply alike_raise | apply alike_get
    | apply alike_len | apply alike_int | apply alike_add_metric
    | apply alike_metrics_values
    | apply alike_for_in; intros ?
    | apply alike_bind; [|intros ?] ].

(** ** Exceptions propagate *)

Lemma aborts_bind_l {A B} (m : M A) (k : A -> M B) :
  aborts m -> aborts (bind m k).
Proof.
  intros Hm st. unfold bind. specialize (Hm st).
  destruct (m st) as [[a|e] st1]; simpl in *; [contradiction|exact I].
Qed.

Lemma aborts_bind_r {A B} (m : M A) (k : A -> M B) :
  (forall a, aborts (k a)) -> aborts (bind m k).
Proof.
  intros Hk st. unfold bind.
  destruct (m st) as [[a|e] st1]; simpl; [apply Hk|exact I].
Qed.

Lemma aborts_fetch {A} repr self srv endpoint cause (k : pyval -> M A) :
  failure_of (srv (get_request repr self endpoint)) = Some cause ->
  aborts (x <- _fetch repr self srv endpoint ;; k x).
Proof.
  intros H. apply aborts_bind_l. intros st.
  now rewrite (_fetch_failure _ _ _ _ _ _ H).
Qed.

(** ** The claims *)

Section Claims.

Context (repr : pyval -> string) (int_of_str : string -> option Z).

(** C5.  When the request for a resource meets a transport failure or an
    answer whose status is not 2xx ([failure_of] names the httpx error in
    either case), [_fetch] raises the exception built from the endpoint and
    that error; the request has gone out exactly once and the metric families
    are untouched. *)
Theorem fetch_failure_raises_once self srv endpoint st cause :
  failure_of (srv (get_request repr self endpoint)) = Some cause ->
  exists st',
    _fetch repr self srv endpoint st =
      (Raise (Exception_fetching endpoint cause), st') /\
    sent st' = sent st ++ [get_request repr self endpoint] /\
    metrics st' = metrics st.
Proof.
  intros H. eexists. split; [apply _fetch_failure, H|]. now split.
Qed.

(** Every pass sends its one request, whatever comes back. *)
Lemma nodes_pass_sent self srv st :
  sent (snd (_collect_nodes_metrics repr self srv st)) =
  sent st ++ [get_request repr self "/nodes"].
Proof. apply fetch_then_silent. intros x. silence. Qed.

Lemma usage_pass_sent self srv st :
  sent (snd (_collect_nodes_usage_metrics repr self srv st)) =
  sent st ++ [get_request repr self "/nodes/usage"].
Proof. apply fetch_then_silent. intros x. silence. Qed.

Lemma system_pass_sent self srv st :
  sent (snd (_collect_system_metrics repr self srv st)) =
  sent st ++ [get_request repr self "/system"].
Proof. apply fetch_then_silent. intros x. silence. Qed.

Lemma core_pass_sent self srv st :
  sent (snd (_collect_core_metrics repr int_of_str self srv st)) =
  sent st ++ [get_request repr self "/core"].
Proof. apply fetch_then_silent. intros x. silence. Qed.

Lemma users_pass_sent self srv st :
  sent (snd (_collect_users_metrics repr self srv st)) =
  sent st ++ [get_request repr self "/users"].
Proof. apply fetch_then_silent. intros x. silence. Qed.

(** C7, as amended.  The requests of one scrape are the first [n] of the five
    GETs, in the order /nodes, /nodes/usage, /system, /core, /users, one after
    the other and each once; at least one goes out.  A scrape that returns
    its Metric Set has run the five passes to their end and sent all five.  A
    scrape that raises stops at the pass that raised: the [n - 1] passes
    before it returned, pass number [n] raised the exception that the scrape
    raises, and the scrape ends in the state in which that pass left the
    collector, with no later pass run and no later request sent. *)
Theorem collect_fetch_order self srv st :
  exists n,
    (1 <= n <= 5)%nat /\
    sent (snd (collect repr int_of_str self srv st)) =
      sent st ++ map (get_request repr self) (firstn n endpoints) /\
    (forall fams,
       fst (collect repr int_of_str self srv st) = Ok fams ->
       n = 5%nat /\
       returned (passes repr int_of_str self srv) st =
         Some (snd (collect repr int_of_str self srv st))) /\
    (forall e,
       fst (collect repr int_of_str self srv st) = Raise e ->
       exists st1 p,
         returned (firstn (n - 1) (passes repr int_of_str self srv)) st =
           Some st1 /\
         nth_error (passes repr int_of_str self srv) (n - 1) = Some p /\
         p st1 = (Raise e, snd (collect repr int_of_str self srv st))).
Proof.
  unfold collect, bind.
  pose proof (nodes_pass_sent self srv st) as H1.
  destruct (_collect_nodes_metrics repr self srv st) as [[[]|e1] st1] eqn:E1;
    simpl in H1.
  2:{ exists 1%nat. split; [lia|]. split; [exact H1|].
      split; [discriminate|]. intros e [= <-].
      exists st, (_collect_nodes_metrics repr self srv).
      split; [reflexivity|]. split; [reflexivity|exact E1]. }
  pose proof (usage_pass_sent self srv st1) as H2.
  destruct (_collect_nodes_usage_metrics repr self srv st1) as [[[]|e2] st2] eqn:E2;
    simpl in H2; rewrite H1 in H2; rewrite <- app_assoc in H2.
  2:{ exists 2%nat. split; [lia|]. split; [exact H2|].
      split; [discriminate|]. intros e [= <-].
      exists st1, (_collect_nodes_usage_metrics repr self srv).
      split; [|split; [reflexivity|exact E2]].
      cbn [Nat.sub firstn passes returned]. now rewrite E1. }
  pose proof (system_pass_sent self srv st2) as H3.
  destruct (_collect_system_metrics repr self srv st2) as [[[]|e3] st3] eqn:E3;
    simpl in H3; rewrite H2 in H3; rewrite <- app_assoc in H3.
  2:{ exists 3%nat. split; [lia|]. split; [exact H3|].
      split; [discriminate|]. intros e [= <-].
      exists st2, (_collect_system_metrics repr self srv).
      split; [|split; [reflexivity|exact E3]].
      cbn [Nat.sub firstn passes returned]. now rewrite E1, E2. }
  pose proof (core_pass_sent self srv st3) as H4.
  destruct (_collect_core_metrics repr int_of_str self srv st3) as [[[]|e4] st4] eqn:E4;
    simpl in H4; rewrite H3 in H4; rewrite <- app_assoc in H4.
  2:{ exists 4%nat. split; [lia|]. split; [exact H4|].
      split; [discriminate|]. intros e [= <-].
      exists st3, (_collect_core_metrics repr int_of_str self srv).
      split; [|split; [reflexivity|exact E4]].
      cbn [Nat.sub firstn passes returned]. now rewrite E1, E2, E3. }
  pose proof (users_pass_sent self srv st4) as H5.
  destruct (_collect_users_metrics repr self srv st4) as [[[]|e5] st5] eqn:E5;
    simpl in H5; rewrite H4 in H5; rewrite <- app_assoc in H5.
  2:{ exists 5%nat. split; [lia|]. split; [exact H5|].
      split; [discriminate|]. intros e [= <-].
      exists st4, (_collect_users_metrics repr self srv).
      split; [|split; [reflexivity|exact E5]].
      cbn [Nat.sub firstn passes returned]. now rewrite E1, E2, E3, E4. }
  exists 5%nat. split; [lia|]. split; [exact H5|].
  split; [|discriminate].
  intros fams _. split; [reflexivity|].
  cbn [passes returned]. now rewrite E1, E2, E3, E4, E5.
Qed.

(** C10.  What a scrape returns, and what it leaves in [self.metrics], is a
    function of the token, of the families held before it and of the five
    answers: two runs that agree on these agree on the outcome (the same
    Metric Set family by family, or the same exception), whatever else the
    two control planes would say and whatever was sent before. *)
Theorem collect_deterministic self srv1 srv2 st1 st2 :
  metrics st1 = metrics st2 ->
  (forall endpoint, In endpoint endpoints ->
     srv1 (get_request repr self endpoint) = srv2 (get_request repr self endpoint)) ->
  fst (collect repr int_of_str self srv1 st1) =
    fst (collect repr int_of_str self srv2 st2) /\
  metrics (snd (collect repr int_of_str self srv1 st1)) =
    metrics (snd (collect repr int_of_str self srv2 st2)).
Proof.
  intros Hst Hsrv.
  assert (Hfetch : forall endpoint, In endpoint endpoints ->
            alike (_fetch repr self srv1 endpoint) (_fetch repr self srv2 endpoint)).
  { intros endpoint Hin. apply alike_fetch, Hsrv, Hin. }
  revert st1 st2 Hst.
  change (alike (collect repr int_of_str self srv1) (collect repr int_of_str self srv2)).
  unfold collect, _collect_nodes_metrics, _collect_nodes_usage_metrics,
    _collect_system_metrics, _collect_core_metrics, _collect_users_metrics,
    fetch_nodes_data, fetch_nodes_usage_data, fetch_system_data,
    fetch_core_data, fetch_users_data.
  liken; apply Hfetch; simpl; tauto.
Qed.

Lemma field_absent (d : gmap string pyval) key dflt :
  d !! key = None -> field d key dflt = dflt.
Proof. intros H. unfold field. now rewrite H. Qed.

Lemma field_present (d : gmap string pyval) key dflt v :
  d !! key = Some v -> field d key dflt = v.
Proof. intros H. unfold field. now rewrite H. Qed.

(** C4.  A field that is absent from a JSON object reads as its default, and
    the defaults are [0] for every numeric field and ["unknown"] for every
    label.  Each pass returns normally on JSON objects whatever fields they
    hold or lack, and adds one sample per record and family, whose value and
    labels are the fields read that way. *)
Theorem missing_fields_default self srv st :
  collector_state st ->
  (forall (d : gmap string pyval) key dflt,
     d !! key = None -> field d key dflt = dflt) /\
  str repr (PStr "unknown") = "unknown" /\
  (forall ds,
     success_body (srv (get_request repr self "/nodes")) =
       Some (PList (map PDict ds)) ->
     exists st',
       _collect_nodes_metrics repr self srv st = (Ok tt, st') /\
       samples_at "node_usage_coefficient" st' =
         samples_at "node_usage_coefficient" st ++
         map (fun d =>
                labelled "node_usage_coefficient" "node_name"
                  (field d "name" (PStr "unknown"))
                  (field d "usage_coefficient" (PInt 0))) ds /\
       samples_at "node_address" st' =
         samples_at "node_address" st ++ map (node_info repr) ds) /\
  (forall d ds,
     success_body (srv (get_request repr self "/nodes/usage")) = Some (PDict d) ->
     field d "usages" (PList []) = PList (map PDict ds) ->
     exists st',
       _collect_nodes_usage_metrics repr self srv st = (Ok tt, st') /\
       samples_at "node_uplink" st' =
         samples_at "node_uplink" st ++
         map (fun u =>
                labelled "node_uplink_bytes" "node_name"
                  (field u "node_name" (PStr "unknown"))
                  (field u "uplink" (PInt 0))) ds /\
       samples_at "node_downlink" st' =
         samples_at "node_downlink" st ++
         map (fun u =>
                labelled "node_downlink_bytes" "node_name"
                  (field u "node_name" (PStr "unknown"))
                  (field u "downlink" (PInt 0))) ds) /\
  (forall d,
     success_body (srv (get_request repr self "/system")) = Some (PDict d) ->
     exists st',
       _collect_system_metrics repr self srv st = (Ok tt, st') /\
       samples_at "system_mem_total" st' =
         samples_at "system_mem_total" st ++
         [plain "system_memory_total_bytes" (field d "mem_total" (PInt 0))] /\
       samples_at "system_mem_used" st' =
         samples_at "system_mem_used" st ++
         [plain "system_memory_used_bytes" (field d "mem_used" (PInt 0))] /\
       samples_at "system_cpu_usage" st' =
         samples_at "system_cpu_usage" st ++
         [plain "system_cpu_usage_percent" (field d "cpu_usage" (PInt 0))] /\
       samples_at "system_total_users" st' =
         samples_at "system_total_users" st ++
         [plain "system_total_users" (field d "total_user" (PInt 0))] /\
       samples_at "system_active_users" st' =
         samples_at "system_active_users" st ++
         [plain "system_active_users" (field d "users_active" (PInt 0))] /\
       samples_at "system_incoming_bandwidth" st' =
         samples_at "system_incoming_bandwidth" st ++
         [plain "system_incoming_bandwidth_bytes"
            (field d "incoming_bandwidth" (PInt 0))] /\
       samples_at "system_outgoing_bandwidth" st' =
         samples_at "system_outgoing_bandwidth" st ++
         [plain "system_outgoing_bandwidth_bytes"
            (field d "outgoing_bandwidth" (PInt 0))]) /\
  (forall d,
     success_body (srv (get_request repr self "/core")) = Some (PDict d) ->
     d !! "started" = None ->
     exists st',
       _collect_core_metrics repr int_of_str self srv st = (Ok tt, st') /\
       samples_at "core_started" st' =
         samples_at "core_started" st ++ [plain "core_started" (PInt 0)]) /\
  (forall d ds,
     success_body (srv (get_request repr self "/users")) = Some (PDict d) ->
     field d "users" (PList []) = PList (map PDict ds) ->
     exists st',
       _collect_users_metrics repr self srv st = (Ok tt, st') /\
       samples_at "user_traffic" st' =
         samples_at "user_traffic" st ++
         map (fun u =>
                labelled "user_lifetime_used_traffic_bytes" "username"
                  (field u "username" (PStr "unknown"))
                  (field u "lifetime_used_traffic" (PInt 0))) ds).
Proof.
  intros Hc. split; [exact field_absent|]. split; [reflexivity|].
  repeat split.
  - intros ds Hv.
    destruct (nodes_pass_emits repr self srv st ds Hc Hv) as (st' & Hrun & _ & _ & Hn).
    exists st'. split; [exact Hrun|]. split.
    + rewrite Hn. f_equal; try (apply each_one; now intros d).
    + rewrite Hn. f_equal; try (apply each_one; now intros d).
  - intros d ds Hv Hd.
    destruct (usage_pass_emits repr self srv st d ds Hc Hv Hd) as (st' & Hrun & _ & _ & Hn).
    exists st'. split; [exact Hrun|]. split.
    + rewrite Hn. f_equal; try (apply each_one; now intros u).
    + rewrite Hn. f_equal; try (apply each_one; now intros u).
  - intros d Hv.
    destruct (system_pass_emits repr self srv st d Hc Hv) as (st' & Hrun & _ & _ & Hn).
    exists st'. split; [exact Hrun|]. repeat split; now rewrite Hn.
  - intros d Hv Hd.
    assert (Hint : int int_of_str (field d "started" (PBool false)) = ret (PInt 0)).
    { now rewrite (field_absent _ _ _ Hd). }
    destruct (core_pass_emits repr int_of_str self srv st d (PInt 0) Hc Hv Hint)
      as (st' & Hrun & _ & _ & Hn).
    exists st'. split; [exact Hrun|]. now rewrite Hn.
  - intros d ds Hv Hd.
    destruct (users_pass_emits repr self srv st d ds Hc Hv Hd) as (st' & Hrun & _ & _ & Hn).
    exists st'. split; [exact Hrun|].
    rewrite Hn. f_equal; try (apply each_one; now intros u).
Qed.

(** C8.  The usage pass and the user pass read their records under the keys
    ["usages"] and ["users"] of the fetched object.  When the key is absent
    the pass returns normally: the usage pass adds no sample at all, and the
    user pass adds [total_users] with value [0] and nothing else. *)
Theorem absent_wrapper_emits_nothing self srv st :
  collector_state st ->
  (forall d,
     success_body (srv (get_request repr self "/nodes/usage")) = Some (PDict d) ->
     (forall ds, d !! "usages" = Some (PList (map PDict ds)) ->
        exists st',
          _collect_nodes_usage_metrics repr self srv st = (Ok tt, st') /\
          length (samples_at "node_uplink" st') =
            (length (samples_at "node_uplink" st) + length ds)%nat /\
          length (samples_at "node_downlink" st') =
            (length (samples_at "node_downlink" st) + length ds)%nat) /\
     (d !! "usages" = None ->
        exists st',
          _collect_nodes_usage_metrics repr self srv st = (Ok tt, st') /\
          forall key, samples_at key st' = samples_at key st)) /\
  (forall d,
     success_body (srv (get_request repr self "/users")) = Some (PDict d) ->
     (forall ds, d !! "users" = Some (PList (map PDict ds)) ->
        exists st',
          _collect_users_metrics repr self srv st = (Ok tt, st') /\
          length (samples_at "user_traffic" st') =
            (length (samples_at "user_traffic" st) + length ds)%nat) /\
     (d !! "users" = None ->
        exists st',
          _collect_users_metrics repr self srv st = (Ok tt, st') /\
          samples_at "total_users" st' =
            samples_at "total_users" st ++ [plain "total_users" (PInt 0)] /\
          forall key, key <> "total_users" ->
            samples_at key st' = samples_at key st)).
Proof.
  intros Hc. split; intros d Hv; split.
  - intros ds Hd.
    destruct (usage_pass_emits repr self srv st d ds Hc Hv
                (field_present _ _ _ _ Hd)) as (st' & Hrun & _ & _ & Hn).
    exists st'. split; [exact Hrun|].
    rewrite !Hn, !length_app.
    rewrite (each_one usage_samples _ ds "node_uplink" (fun u => eq_refl)).
    rewrite (each_one usage_samples _ ds "node_downlink" (fun u => eq_refl)).
    now rewrite !length_map.
  - intros Hd.
    destruct (usage_pass_emits repr self srv st d [] Hc Hv
                (field_absent _ _ _ Hd)) as (st' & Hrun & _ & _ & Hn).
    exists st'. split; [exact Hrun|].
    intros key. rewrite Hn. apply app_nil_r.
  - intros ds Hd.
    destruct (users_pass_emits repr self srv st d ds Hc Hv
                (field_present _ _ _ _ Hd)) as (st' & Hrun & _ & _ & Hn).
    exists st'. split; [exact Hrun|].
    rewrite Hn.
    change (only "total_users" ?s "user_traffic" ++ ?r) with r.
    rewrite (each_one user_samples _ ds "user_traffic" (fun u => eq_refl)).
    now rewrite length_app, length_map.
  - intros Hd.
    destruct (users_pass_emits repr self srv st d [] Hc Hv
                (field_absent _ _ _ Hd)) as (st' & Hrun & _ & _ & Hn).
    exists st'. split; [exact Hrun|]. split.
    + now rewrite Hn.
    + intros key Hkey. rewrite Hn. unfold only, each. simpl.
      apply String.eqb_neq in Hkey. rewrite Hkey. apply app_nil_r.
Qed.

Lemma bind_Ok_inv {A B} (m : M A) (k : A -> M B) st b st' :
  (x <- m ;; k x) st = (Ok b, st') ->
  exists a st1, m st = (Ok a, st1) /\ k a st1 = (Ok b, st').
Proof.
  unfold bind. destruct (m st) as [[a|e] st1]; [|discriminate].
  intros H. now exists a, st1.
Qed.

Lemma get_cases v key dflt :
  (exists d, v = PDict d) \/ get v key dflt = raise (AttributeError "get").
Proof. destruct v; first [now right | left; eauto]. Qed.






(** C3, as amended.  When the control plane answers with the fixtures, the
    usage records under ["usages"] and the users under ["users"], a scrape
    from any state of the collector returns, and the Metric Set it returns
    holds the six samples. *)
Theorem collect_fixture_samples self srv st :
  collector_state st ->
  success_body (srv (get_request repr self "/nodes")) =
    Some (PList [PDict node_n1]) ->
  success_body (srv (get_request repr self "/nodes/usage")) =
    Some (PDict (obj [("usages", PList [PDict usage_n1])])) ->
  success_body (srv (get_request repr self "/system")) =
    Some (PDict system_fixture) ->
  success_body (srv (get_request repr self "/core")) =
    Some (PDict core_fixture) ->
  success_body (srv (get_request repr self "/users")) =
    Some (PDict (obj [("users", PList [PDict user_alice])])) ->
  exists fams st',
    collect repr int_of_str self srv st = (Ok fams, st') /\
    In (labelled "node_usage_coefficient" "node_name" (PStr "n1") (PFloat (5 # 2)))
       (samples_named "node_usage_coefficient" fams) /\
    In (labelled "node_uplink_bytes" "node_name" (PStr "n1") (PInt 100))
       (samples_named "node_uplink_bytes" fams) /\
    In (plain "system_cpu_usage_percent" (PInt 10))
       (samples_named "system_cpu_usage_percent" fams) /\
    In (plain "core_started" (PInt 1))
       (samples_named "core_started" fams) /\
    In (plain "total_users" (PInt 1))
       (samples_named "total_users" fams) /\
    In (labelled "user_lifetime_used_traffic_bytes" "username" (PStr "alice")
          (PInt 12345))
       (samples_named "user_lifetime_used_traffic_bytes" fams).
Proof.
  intros Hc Hn Hu Hs Hco Hus.
  assert (Hwf : well_formed repr int_of_str self srv
                  [node_n1] [usage_n1] system_fixture (PInt 1) [user_alice]).
  { split.
    - exact Hn.
    - eexists. split; [exact Hu|]. vm_compute. reflexivity.
    - exact Hs.
    - eexists. split; [exact Hco|].
      replace (field core_fixture "started" (PBool false)) with (PBool true)
        by (vm_compute; reflexivity).
      reflexivity.
    - eexists. split; [exact Hus|]. vm_compute. reflexivity. }
  destruct (collect_scrape repr int_of_str self srv st _ _ _ _ _ Hc Hwf)
    as (st' & Hrun & Hc' & _ & Hnew).
  exists (map snd (metrics st')), st'. split; [exact Hrun|].
  rewrite (samples_named_key st' "node_usage_coefficient" "node_usage_coefficient" Hc' eq_refl).
  rewrite (samples_named_key st' "node_uplink" "node_uplink_bytes" Hc' eq_refl).
  rewrite (samples_named_key st' "system_cpu_usage" "system_cpu_usage_percent" Hc' eq_refl).
  rewrite (samples_named_key st' "core_started" "core_started" Hc' eq_refl).
  rewrite (samples_named_key st' "total_users" "total_users" Hc' eq_refl).
  rewrite (samples_named_key st' "user_traffic" "user_lifetime_used_traffic_bytes" Hc' eq_refl).
  rewrite !Hnew.
  repeat split; apply in_or_app; right; vm_compute; auto.
Qed.

Lemma length_each f ds key n :
  (forall d, length (f d key) = n) ->
  length (each f ds key) = (n * length ds)%nat.
Proof.
  intros H. unfold each. induction ds as [|d ds IH]; simpl; [lia|].
  rewrite length_app, H, IH. lia.
Qed.

Ltac count_samples :=
  unfold scrape_samples; rewrite !length_app;
  repeat match goal with
    | |- context [length (each ?f ?ds ?k)] =>
        first [ rewrite (length_each f ds k 0%nat) by (intros; reflexivity)
              | rewrite (length_each f ds k 1%nat) by (intros; reflexivity) ]
    | |- context [length (system_samples ?d ?k)] =>
        let n := eval lazy in (length (system_samples d k)) in
        change (length (system_samples d k)) with n
    | |- context [length (only ?a ?s ?k)] =>
        let n := eval lazy in (length (only a s k)) in
        change (length (only a s k)) with n
    end;
  lia.

(** What every scrape does on well-formed answers: the Metric Set it returns
    holds, family by family, the samples that were there before the scrape
    and, after them, one [system_version], one [core_started], one
    [total_users], one sample per node, per usage record and per user.  The
    samples of earlier scrapes are not dropped. *)
Theorem scrape_adds_counts self srv st nodes usages system started users :
  collector_state st ->
  well_formed repr int_of_str self srv nodes usages system started users ->
  exists fams st',
    collect repr int_of_str self srv st = (Ok fams, st') /\
    collector_state st' /\
    length (samples_named "system_version" fams) =
      (length (samples_at "system_version" st) + 1)%nat /\
    length (samples_named "core_started" fams) =
      (length (samples_at "core_started" st) + 1)%nat /\
    length (samples_named "total_users" fams) =
      (length (samples_at "total_users" st) + 1)%nat /\
    length (samples_named "node_usage_coefficient" fams) =
      (length (samples_at "node_usage_coefficient" st) + length nodes)%nat /\
    length (samples_named "node_info" fams) =
      (length (samples_at "node_address" st) + length nodes)%nat /\
    length (samples_named "node_uplink_bytes" fams) =
      (length (samples_at "node_uplink" st) + length usages)%nat /\
    length (samples_named "node_downlink_bytes" fams) =
      (length (samples_at "node_downlink" st) + length usages)%nat /\
    length (samples_named "user_lifetime_used_traffic_bytes" fams) =
      (length (samples_at "user_traffic" st) + length users)%nat.
Proof.
  intros Hc Hwf.
  destruct (collect_scrape repr int_of_str self srv st _ _ _ _ _ Hc Hwf)
    as (st' & Hrun & Hc' & _ & Hnew).
  exists (map snd (metrics st')), st'. split; [exact Hrun|]. split; [exact Hc'|].
  rewrite (samples_named_key st' "system_version" "system_version" Hc' eq_refl).
  rewrite (samples_named_key st' "core_started" "core_started" Hc' eq_refl).
  rewrite (samples_named_key st' "total_users" "total_users" Hc' eq_refl).
  rewrite (samples_named_key st' "node_usage_coefficient" "node_usage_coefficient" Hc' eq_refl).
  rewrite (samples_named_key st' "node_address" "node_info" Hc' eq_refl).
  rewrite (samples_named_key st' "node_uplink" "node_uplink_bytes" Hc' eq_refl).
  rewrite (samples_named_key st' "node_downlink" "node_downlink_bytes" Hc' eq_refl).
  rewrite (samples_named_key st' "user_traffic" "user_lifetime_used_traffic_bytes" Hc' eq_refl).
  rewrite !Hnew.
  repeat split; count_samples.
Qed.

(** The first scrape of a collector just built: exactly one
    [system_version], one [core_started], one [total_users], and as many
    samples as there are nodes, usage records and users. *)
Theorem first_scrape_counts self srv rqs nodes usages system started users :
  well_formed repr int_of_str self srv nodes usages system started users ->
  exists fams st',
    collect repr int_of_str self srv (mkState metrics_init rqs) = (Ok fams, st') /\
    length (samples_named "system_version" fams) = 1%nat /\
    length (samples_named "core_started" fams) = 1%nat /\
    length (samples_named "total_users" fams) = 1%nat /\
    length (samples_named "node_usage_coefficient" fams) = length nodes /\
    length (samples_named "node_info" fams) = length nodes /\
    length (samples_named "node_uplink_bytes" fams) = length usages /\
    length (samples_named "node_downlink_bytes" fams) = length usages /\
    length (samples_named "user_lifetime_used_traffic_bytes" fams) = length users.
Proof.
  intros Hwf.
  destruct (scrape_adds_counts self srv (mkState metrics_init rqs)
              nodes usages system started users
              (collector_state_init rqs) Hwf)
    as (fams & st' & Hrun & _ & H1 & H2 & H3 & H4 & H5 & H6 & H7 & H8).
  exists fams, st'. split; [exact Hrun|].
  repeat split; assumption.
Qed.

(** X14.  When a fetch of one of the five resources fails, the scrape raises: it
    returns no Metric Set, partial or not. *)
Theorem collect_fetch_failure_propagates self srv endpoint cause st :
  In endpoint endpoints ->
  failure_of (srv (get_request repr self endpoint)) = Some cause ->
  failed (fst (collect repr int_of_str self srv st)).
Proof.
  intros Hin Hfail. revert st.
  change (aborts (collect repr int_of_str self srv)).
  unfold collect.
  destruct Hin as [<-|[<-|[<-|[<-|[<-|[]]]]]].
  - apply aborts_bind_l. now apply (aborts_fetch repr self srv "/nodes" cause).
  - apply aborts_bind_r; intros _.
    apply aborts_bind_l. now apply (aborts_fetch repr self srv "/nodes/usage" cause).
  - do 2 (apply aborts_bind_r; intros _).
    apply aborts_bind_l. now apply (aborts_fetch repr self srv "/system" cause).
  - do 3 (apply aborts_bind_r; intros _).
    apply aborts_bind_l. now apply (aborts_fetch repr self srv "/core" cause).
  - do 4 (apply aborts_bind_r; intros _).
    apply aborts_bind_l. now apply (aborts_fetch repr self srv "/users" cause).
Qed.

(** X15.  What an aborted scrape leaves behind, in general: when [/nodes] is
    answered and [/nodes/usage] fails, the scrape raises the fetch exception,
    and the collector keeps the samples that the node pass added. *)
Theorem usage_failure_keeps_node_samples self srv st nodes cause :
  collector_state st ->
  success_body (srv (get_request repr self "/nodes")) =
    Some (PList (map PDict nodes)) ->
  failure_of (srv (get_request repr self "/nodes/usage")) = Some cause ->
  exists st',
    collect repr int_of_str self srv st =
      (Raise (Exception_fetching "/nodes/usage" cause), st') /\
    samples_at "node_usage_coefficient" st' =
      samples_at "node_usage_coefficient" st ++
      map (fun d =>
             labelled "node_usage_coefficient" "node_name"
               (field d "name" (PStr "unknown"))
               (field d "usage_coefficient" (PInt 0))) nodes.
Proof.
  intros Hc Hn Hfail. unfold collect.
  destruct (emits_then _
              (_collect_nodes_usage_metrics repr self srv ;;
               _collect_system_metrics repr self srv ;;
               _collect_core_metrics repr int_of_str self srv ;;
               _collect_users_metrics repr self srv ;;
               metrics_values) _ _ _
              (nodes_pass_emits repr self srv st nodes Hc Hn))
    as (st1 & -> & _ & _ & Hn1).
  exists (log (get_request repr self "/nodes/usage") st1).
  unfold _collect_nodes_usage_metrics, fetch_nodes_usage_data, bind.
  rewrite (_fetch_failure _ _ _ _ _ _ Hfail). split; [reflexivity|].
  change (samples_at "node_usage_coefficient"
            (log (get_request repr self "/nodes/usage") st1))
    with (samples_at "node_usage_coefficient" st1).
  rewrite Hn1. f_equal; try (apply each_one; now intros d).
Qed.

End Claims.

(** ** The credential exchange *)

Lemma _get_token_cases cfg srv st :
  _get_token cfg srv st =
  (match srv (token_request cfg) with
   | Failed detail => Raise (HTTPError (TransportError detail))
   | Answered r =>
       match body r with
       | None => Raise JSONDecodeError
       | Some (PDict d) =>
           match d !! "access_token" with
           | Some t => Ok t
           | None => Raise (KeyError "access_token")
           end
       | Some _ => Raise TypeError
       end
   end,
   log (token_request cfg) st).
Proof.
  unfold _get_token, try_except_HTTPStatusError, bind, client_post, json,
    subscript, token_request, log, raise, ret.
  destruct (srv _) as [r|detail]; [|reflexivity].
  destruct (body r) as [v|]; [|reflexivity].
  destruct v; try reflexivity.
  now destruct (d !! "access_token").
Qed.

(** X7.  The client is built exactly when the exchange is answered with a JSON
    object that holds [access_token]; the status of the answer plays no
    part. *)
Theorem MarzbanAPI_init_returns cfg srv st api_client st' :
  MarzbanAPI_init cfg srv st = (Ok api_client, st') <->
  (exists r d,
     srv (token_request cfg) = Answered r /\
     body r = Some (PDict d) /\
     d !! "access_token" = Some (token api_client)) /\
  st' = log (token_request cfg) st.
Proof.
  unfold MarzbanAPI_init, bind. rewrite _get_token_cases.
  destruct api_client as [t]. simpl.
  destruct (srv (token_request cfg)) as [r|detail].
  - destruct (body r) as [v|] eqn:Hb.
    + destruct v; try (split; [discriminate | intros [(r' & d' & [= <-] & Hb' & _) _]; congruence]).
      destruct (d !! "access_token") as [t'|] eqn:Ht.
      * split.
        -- intros [= -> <-]. split; [|reflexivity]. now exists r, d.
        -- intros [(r' & d' & [= <-] & Hb' & Ht') ->].
           rewrite Hb in Hb'. injection Hb' as <-. rewrite Ht in Ht'.
           injection Ht' as ->. reflexivity.
      * split; [discriminate|].
        intros [(r' & d' & [= <-] & Hb' & Ht') _].
        rewrite Hb in Hb'. injection Hb' as <-. congruence.
    + split; [discriminate|].
      intros [(r' & d' & [= <-] & Hb' & _) _]. congruence.
  - split; [discriminate|]. intros [(r' & d' & Hr & _) _]. discriminate.
Qed.

(** ** The fixtures, run *)

(** C1.  The families live in the collector, not in the scrape: the second
    scrape of the same well-formed answers serves every sample twice, two
    [system_version], two [core_started], two [total_users], two samples for
    the one node, the one usage record and the one user. *)
Theorem second_scrape_serves_duplicates :
  served (fst first_scrape) "system_version" =
    Some [plain "system_version" (PInt 1)] /\
  served (fst second_scrape) "system_version" =
    Some [plain "system_version" (PInt 1); plain "system_version" (PInt 1)] /\
  served (fst second_scrape) "core_started" =
    Some [plain "core_started" (PInt 1); plain "core_started" (PInt 1)] /\
  served (fst second_scrape) "total_users" =
    Some [plain "total_users" (PInt 1); plain "total_users" (PInt 1)] /\
  served (fst second_scrape) "node_usage_coefficient" =
    Some [labelled "node_usage_coefficient" "node_name" (PStr "n1") (PFloat (5 # 2));
          labelled "node_usage_coefficient" "node_name" (PStr "n1") (PFloat (5 # 2))] /\
  served (fst second_scrape) "node_uplink_bytes" =
    Some [labelled "node_uplink_bytes" "node_name" (PStr "n1") (PInt 100);
          labelled "node_uplink_bytes" "node_name" (PStr "n1") (PInt 100)] /\
  served (fst second_scrape) "user_lifetime_used_traffic_bytes" =
    Some [labelled "user_lifetime_used_traffic_bytes" "username" (PStr "alice") (PInt 12345);
          labelled "user_lifetime_used_traffic_bytes" "username" (PStr "alice") (PInt 12345)].
Proof. repeat split; vm_compute; reflexivity. Qed.

(** C2.  A scrape whose second fetch fails raises the fetch exception and
    serves nothing, but the sample that the node pass had added by then stays
    in the collector: the state is not what it was before the scrape, and
    the next scrape serves that sample next to its own. *)
Theorem aborted_scrape_leaves_samples :
  fst aborted_scrape =
    Raise (Exception_fetching "/nodes/usage" (HTTPStatusError 500)) /\
  served (fst aborted_scrape) "node_usage_coefficient" = None /\
  samples_at "node_usage_coefficient" fresh = [] /\
  samples_at "node_usage_coefficient" (snd aborted_scrape) =
    [labelled "node_usage_coefficient" "node_name" (PStr "n1") (PFloat (5 # 2))] /\
  served (fst scrape_after_abort) "node_usage_coefficient" =
    Some [labelled "node_usage_coefficient" "node_name" (PStr "n1") (PFloat (5 # 2));
          labelled "node_usage_coefficient" "node_name" (PStr "n1") (PFloat (5 # 2))] /\
  served (fst scrape_after_abort) "node_uplink_bytes" =
    Some [labelled "node_uplink_bytes" "node_name" (PStr "n1") (PInt 100)].
Proof. repeat split; vm_compute; reflexivity. Qed.


(** Refused the way Marzban refuses, with no token in the body, the exchange
    raises and the collector is never built. *)
Lemma startup_fails_without_token :
  startup env credentials_refused blank =
    (Raise (KeyError "access_token"), mkState [] [token_request env]).
Proof. vm_compute. reflexivity. Qed.

(** Against C3 as written: with the usage and user fixtures handed over as
    bare lists, the scrape raises at [usage_data.get]. *)
Lemma bare_fixtures_raise :
  fst (scrape bare_fixtures fresh) = Raise (AttributeError "get").
Proof. vm_compute. reflexivity. Qed.

(** Against C7 as written: when [/nodes] cannot be reached the scrape sends
    one request, not five. *)
Lemma unreachable_nodes_one_fetch :
  sent (snd (scrape nodes_unreachable fresh)) =
    [get_request repr_scalar api0 "/nodes"] /\
  fst (scrape nodes_unreachable fresh) =
    Raise (Exception_fetching "/nodes" (TransportError "connection refused")).
Proof. split; vm_compute; reflexivity. Qed.

(** ** The theorems at the fixtures *)

Lemma fetch_failure_raises_once_witness :
  failure_of (usage_down (get_request repr_scalar api0 "/nodes/usage")) =
    Some (HTTPStatusError 500) /\
  exists st',
    _fetch repr_scalar api0 usage_down "/nodes/usage" fresh =
      (Raise (Exception_fetching "/nodes/usage" (HTTPStatusError 500)), st') /\
    sent st' = sent fresh ++ [get_request repr_scalar api0 "/nodes/usage"] /\
    metrics st' = metrics fresh.
Proof.
  split; [reflexivity|].
  apply (fetch_failure_raises_once repr_scalar api0 usage_down "/nodes/usage"
           fresh (HTTPStatusError 500)).
  reflexivity.
Defined.

Lemma collect_deterministic_witness :
  metrics fresh = metrics (mkState metrics_init [token_request env]) /\
  (forall endpoint, In endpoint endpoints ->
     wrapped_fixtures (get_request repr_scalar api0 endpoint) =
     token_with_401 (get_request repr_scalar api0 endpoint)) /\
  fst (scrape wrapped_fixtures fresh) =
    fst (scrape token_with_401 (mkState metrics_init [token_request env])).
Proof.
  assert (H1 : metrics fresh = metrics (mkState metrics_init [token_request env]))
    by reflexivity.
  assert (H2 : forall endpoint, In endpoint endpoints ->
            wrapped_fixtures (get_request repr_scalar api0 endpoint) =
            token_with_401 (get_request repr_scalar api0 endpoint))
    by (intros endpoint _; reflexivity).
  split; [exact H1|]. split; [exact H2|].
  exact (proj1 (collect_deterministic repr_scalar int_of_decimal api0
                  wrapped_fixtures token_with_401 fresh
                  (mkState metrics_init [token_request env]) H1 H2)).
Defined.

Lemma missing_fields_default_witness :
  collector_state fresh /\
  exists st',
    _collect_system_metrics repr_scalar api0 empty_objects fresh = (Ok tt, st') /\
    samples_at "system_mem_total" st' =
      [plain "system_memory_total_bytes" (PInt 0)].
Proof.
  split; [reflexivity|].
  destruct (missing_fields_default repr_scalar int_of_decimal api0
              empty_objects fresh (collector_state_init []))
    as (_ & _ & _ & _ & Hsystem & _).
  destruct (Hsystem ∅ eq_refl) as (st' & Hrun & Hmem & _).
  exists st'. split; [exact Hrun|exact Hmem].
Defined.

Lemma absent_wrapper_emits_nothing_witness :
  collector_state fresh /\
  exists st',
    _collect_users_metrics repr_scalar api0 empty_objects fresh = (Ok tt, st') /\
    samples_at "total_users" st' = [plain "total_users" (PInt 0)] /\
    samples_at "user_traffic" st' = [].
Proof.
  split; [reflexivity|].
  destruct (absent_wrapper_emits_nothing repr_scalar api0 empty_objects fresh
              (collector_state_init [])) as [_ Husers].
  destruct (Husers ∅ eq_refl) as [_ Habsent].
  destruct (Habsent eq_refl) as (st' & Hrun & Htotal & Hrest).
  exists st'. split; [exact Hrun|]. split; [exact Htotal|].
  apply (Hrest "user_traffic"). discriminate.
Defined.


Lemma collect_fixture_samples_witness :
  collector_state fresh /\
  exists fams st',
    scrape wrapped_fixtures fresh = (Ok fams, st') /\
    In (labelled "node_usage_coefficient" "node_name" (PStr "n1") (PFloat (5 # 2)))
       (samples_named "node_usage_coefficient" fams) /\
    In (plain "total_users" (PInt 1)) (samples_named "total_users" fams).
Proof.
  split; [reflexivity|].
  destruct (collect_fixture_samples repr_scalar int_of_decimal api0
              wrapped_fixtures fresh (collector_state_init [])
              eq_refl eq_refl eq_refl eq_refl eq_refl)
    as (fams & st' & Hrun & Hcoeff & _ & _ & _ & Htotal & _).
  exists fams, st'. split; [exact Hrun|]. split; [exact Hcoeff|exact Htotal].
Defined.

(** * Further properties *)

(** ** Invariants *)

Lemma preserves_ret {A} P (a : A) : preserves P (ret a).
Proof. now intros st. Qed.

Lemma preserves_raise {A} P e : preserves P (@raise A e).
Proof. now intros st. Qed.

Lemma preserves_lift {A} P (r : result A) : preserves P (lift r).
Proof. now intros st. Qed.

Lemma preserves_bind {A B} P (m : M A) (k : A -> M B) :
  preserves P m -> (forall a, preserves P (k a)) -> preserves P (bind m k).
Proof.
  intros Hm Hk st HP. unfold bind. specialize (Hm st HP).
  destruct (m st) as [[a|e] st1]; simpl in *; [|exact Hm].
  now apply Hk.
Qed.

Lemma preserves_for_each P xs body :
  (forall x, preserves P (body x)) -> preserves P (for_each xs body).
Proof.
  intros Hb. induction xs as [|x xs IH]; simpl.
  - apply preserves_ret.
  - apply preserves_bind; [apply Hb | intros _; exact IH].
Qed.

Lemma preserves_for_in P v body :
  (forall x, preserves P (body x)) -> preserves P (for_in v body).
Proof.
  intros Hb. apply preserves_bind; [apply preserves_lift|].
  intros xs. now apply preserves_for_each.
Qed.

Lemma preserves_get P v key dflt : preserves P (get v key dflt).
Proof. destruct v; first [apply preserves_ret | apply preserves_raise]. Qed.

Lemma preserves_len P v : preserves P (len v).
Proof. destruct v; first [apply preserves_ret | apply preserves_raise]. Qed.

Lemma preserves_int P int_of_str v : preserves P (int int_of_str v).
Proof.
  destruct v; simpl; try first [apply preserves_ret | apply preserves_raise].
  destruct (int_of_str s); first [apply preserves_ret | apply preserves_raise].
Qed.

Lemma preserves_metrics_values P : preserves P metrics_values.
Proof. now intros st. Qed.

Lemma preserves_fetch P repr self srv endpoint :
  (forall rq st, P st -> P (log rq st)) ->
  preserves P (_fetch repr self srv endpoint).
Proof.
  intros Hlog st HP. rewrite _fetch_cases. simpl. now apply Hlog.
Qed.

(** The five passes and [collect] keep whatever sending a request and adding
    a sample keep. *)
Ltac keep Hlog Hadd :=
  repeat first
    [ apply preserves_ret | apply preserves_raise | apply preserves_get
    | apply preserves_len | apply preserves_int | apply preserves_metrics_values
    | apply preserves_fetch; exact Hlog
    | apply Hadd
    | apply preserves_for_in; intros ?
    | apply preserves_bind; [|intros ?] ].

Lemma metrics_update_hit key g m m' :
  metrics_update key g m = Some m' ->
  exists f, family_at key m = Some f.
Proof.
  revert m'. induction m as [|[k0 f0] m IH]; simpl; [discriminate|].
  intros m'. destruct (String.eqb k0 key); [now exists f0|].
  destruct (metrics_update key g m) as [m1|]; [|discriminate].
  intros _. now apply (IH m1).
Qed.

Lemma extends_refl st : collector_state st -> extends st st.
Proof.
  intros Hc. split; [exact Hc|]. intros key. exists []. now rewrite app_nil_r.
Qed.

Lemma extends_log st0 rq st : extends st0 st -> extends st0 (log rq st).
Proof. intros H. exact H. Qed.

Lemma extends_add_metric st0 key labels value :
  preserves (extends st0) (add_metric key labels value).
Proof.
  intros st [Hc Hs]. unfold add_metric.
  destruct (metrics_update key _ (metrics st)) as [m'|] eqn:Hup; [|now split].
  destruct (metrics_update_hit _ _ _ _ Hup) as [f Hf].
  destruct (metrics_update_family key
              (fun f => family_add_metric f labels value) _ _ Hf)
    as (m1 & Hup1 & Hm1).
  rewrite Hup in Hup1. injection Hup1 as <-. simpl. split.
  - unfold collector_state; simpl.
    rewrite (metrics_update_schema key
               (fun f => family_add_metric f labels value) (metrics st) m');
      [exact Hc | now intros f' | exact Hup].
  - intros k. destruct (Hs k) as [new Hnew].
    unfold samples_at in *; simpl. rewrite Hm1.
    destruct (String.eqb_spec k key) as [->|Hne].
    + rewrite Hf in Hnew. simpl. rewrite Hnew.
      eexists. now rewrite <- app_assoc.
    + now exists new.
Qed.

Section Invariants.

Context (repr : pyval -> string) (int_of_str : string -> option Z).

Lemma collect_preserves P self srv :
  (forall rq st, P st -> P (log rq st)) ->
  (forall key labels value, preserves P (add_metric key labels value)) ->
  preserves P (collect repr int_of_str self srv).
Proof.
  intros Hlog Hadd.
  unfold collect, _collect_nodes_metrics, _collect_nodes_usage_metrics,
    _collect_system_metrics, _collect_core_metrics, _collect_users_metrics,
    fetch_nodes_data, fetch_nodes_usage_data, fetch_system_data,
    fetch_core_data, fetch_users_data.
  keep Hlog Hadd.
Qed.

Lemma collect_extends self srv st :
  collector_state st ->
  extends st (snd (collect repr int_of_str self srv st)).
Proof.
  intros Hc.
  apply (collect_preserves (extends st) self srv).
  - intros rq st1. apply extends_log.
  - intros key labels value. apply extends_add_metric.
  - now apply extends_refl.
Qed.

(** X1.  Whatever the control plane answers, and whether the scrape returns
    or raises, the collector keeps its fifteen families as [__init__] named
    them, and every family keeps the samples it held, in place, before any
    sample the scrape adds.  [collect] never removes a sample. *)
Theorem collect_only_appends self srv st :
  collector_state st ->
  collector_state (snd (collect repr int_of_str self srv st)) /\
  (forall key : string, exists new : list Sample,
     samples_at key (snd (collect repr int_of_str self srv st)) =
     samples_at key st ++ new).
Proof. intros Hc. exact (collect_extends self srv st Hc). Qed.

End Invariants.

Lemma metrics_update_Forall (Q : GaugeMetricFamily -> Prop) key g m m' :
  Forall (fun kf => Q (snd kf)) m ->
  (forall f, family_at key m = Some f -> Q f -> Q (g f)) ->
  metrics_update key g m = Some m' ->
  Forall (fun kf => Q (snd kf)) m'.
Proof.
  revert m'. induction m as [|[k0 f0] m IH]; simpl; [discriminate|].
  intros m' HQ Hg. apply Forall_cons_iff in HQ as [HQ0 HQ].
  destruct (String.eqb k0 key).
  - intros [= <-]. constructor; [|exact HQ]. now apply Hg.
  - destruct (metrics_update key g m) as [m1|]; [|discriminate].
    intros [= <-]. constructor; [exact HQ0|]. now apply IH.
Qed.

Lemma map_fst_combine {A B} (l : list A) (l' : list B) :
  length l = length l' -> map fst (combine l l') = l.
Proof.
  revert l'. induction l as [|a l IH]; intros [|b l'] H; simpl in *;
    try reflexivity; try discriminate.
  f_equal. apply IH. now injection H.
Qed.

Lemma tidy_log rq st : tidy st -> tidy (log rq st).
Proof. intros H. exact H. Qed.

(** Adding a sample with as many label values as the family has label names
    keeps the collector tidy. *)
Lemma tidy_add_metric key labels value :
  (forall f0, family_at key metrics_init = Some f0 ->
              length (labelnames f0) = length labels) ->
  preserves tidy (add_metric key labels value).
Proof.
  intros Hlen st [Hc Ht]. unfold add_metric.
  destruct (metrics_update key _ (metrics st)) as [m'|] eqn:Hup; [|now split].
  simpl. split.
  - unfold collector_state; simpl.
    rewrite (metrics_update_schema key
               (fun f => family_add_metric f labels value) (metrics st) m');
      [exact Hc | now intros f' | exact Hup].
  - apply (metrics_update_Forall tidy_family key
             (fun f => family_add_metric f labels value) (metrics st) m' Ht);
      [|exact Hup].
    intros f Hf Htf. unfold tidy_family, family_add_metric; simpl.
    apply Forall_app. split; [exact Htf|].
    constructor; [|constructor]. simpl. split; [reflexivity|].
    apply map_fst_combine.
    assert (Hf0 : family_at key metrics_init =
                  Some (new_family (name f) (documentation f) (labelnames f))).
    { unfold collector_state in Hc. rewrite <- Hc, family_at_schema.
      now rewrite Hf. }
    exact (Hlen _ Hf0).
Qed.

Ltac keep_tidy :=
  repeat first
    [ apply preserves_ret | apply preserves_raise | apply preserves_get
    | apply preserves_len | apply preserves_int | apply preserves_metrics_values
    | apply preserves_fetch; exact tidy_log
    | apply tidy_add_metric;
      let f0 := fresh "f0" in let H := fresh "H" in
      intros f0 H; vm_compute in H; injection H as <-; reflexivity
    | apply preserves_for_in; intros ?
    | apply preserves_bind; [|intros ?] ].

Section Served.

Context (repr : pyval -> string) (int_of_str : string -> option Z).

(** What a scrape returns is [self.metrics.values()] as it stands when the
    five passes are over. *)
Lemma collect_returns_values self srv st fams st' :
  collect repr int_of_str self srv st = (Ok fams, st') ->
  fams = map snd (metrics st').
Proof.
  unfold collect. intros H.
  apply bind_Ok_inv in H as (? & ? & _ & H).
  apply bind_Ok_inv in H as (? & ? & _ & H).
  apply bind_Ok_inv in H as (? & ? & _ & H).
  apply bind_Ok_inv in H as (? & ? & _ & H).
  apply bind_Ok_inv in H as (? & ? & _ & H).
  unfold metrics_values in H. now injection H as <- <-.
Qed.

(** X2.  Every Metric Set a scrape returns lists the fifteen families, under
    the names and in the order of [self.metrics], also those families for
    which the scrape had nothing to add. *)
Theorem collect_serves_all_families self srv st fams st' :
  collector_state st ->
  collect repr int_of_str self srv st = (Ok fams, st') ->
  map name fams = family_names.
Proof.
  intros Hc Hrun.
  rewrite (collect_returns_values self srv st fams st' Hrun).
  pose proof (collect_extends repr int_of_str self srv st Hc) as [Hc' _].
  rewrite Hrun in Hc'. simpl in Hc'.
  apply collector_state_names in Hc'.
  apply (f_equal (map snd)) in Hc'. rewrite !map_map in Hc'. simpl in Hc'.
  rewrite map_map. exact Hc'.
Qed.

(** X3.  The collector stays tidy through every scrape, whatever comes back:
    each sample it holds bears the name of its family and exactly the label
    names the family declares.  So does every Metric Set it returns. *)
Theorem collect_keeps_tidy self srv st :
  tidy st ->
  tidy (snd (collect repr int_of_str self srv st)) /\
  forall fams, fst (collect repr int_of_str self srv st) = Ok fams ->
    Forall tidy_family fams.
Proof.
  intros Ht.
  assert (Hkeep : tidy (snd (collect repr int_of_str self srv st))).
  { revert st Ht.
    change (preserves tidy (collect repr int_of_str self srv)).
    unfold collect, _collect_nodes_metrics, _collect_nodes_usage_metrics,
      _collect_system_metrics, _collect_core_metrics, _collect_users_metrics,
      fetch_nodes_data, fetch_nodes_usage_data, fetch_system_data,
      fetch_core_data, fetch_users_data.
    keep_tidy. }
  split; [exact Hkeep|].
  intros fams Hfams.
  destruct (collect repr int_of_str self srv st) as [r st'] eqn:Hrun.
  simpl in *. subst r.
  rewrite (collect_returns_values self srv st fams st' Hrun).
  destruct Hkeep as [_ Hall]. apply Forall_map. exact Hall.
Qed.

End Served.

(** ** The client, further *)

Section ClientMore.

Context (repr : pyval -> string).

(** X5.  The whole of what [_fetch] can do.  It sends its one GET and leaves
    the families alone, whatever the answer; it returns the parsed body of a
    2xx answer; a 2xx answer whose body is not JSON raises the decoder's
    error as it is, not wrapped in the fetch exception; every other answer,
    and a transport failure, raises the fetch exception. *)
Theorem fetch_outcomes self srv endpoint st :
  sent (snd (_fetch repr self srv endpoint st)) =
    sent st ++ [get_request repr self endpoint] /\
  metrics (snd (_fetch repr self srv endpoint st)) = metrics st /\
  (forall v,
     success_body (srv (get_request repr self endpoint)) = Some v ->
     fst (_fetch repr self srv endpoint st) = Ok v) /\
  (forall r,
     srv (get_request repr self endpoint) = Answered r ->
     is_success r = true -> body r = None ->
     fst (_fetch repr self srv endpoint st) = Raise JSONDecodeError) /\
  (forall cause,
     failure_of (srv (get_request repr self endpoint)) = Some cause ->
     fst (_fetch repr self srv endpoint st) =
       Raise (Exception_fetching endpoint cause)).
Proof.
  repeat split.
  - now rewrite _fetch_cases.
  - now rewrite _fetch_cases.
  - intros v Hv. now rewrite (_fetch_success _ _ _ _ _ _ Hv).
  - intros r Hr Hok Hbody. rewrite _fetch_cases, Hr, Hok, Hbody. reflexivity.
  - intros cause Hc. now rewrite (_fetch_failure _ _ _ _ _ _ Hc).
Qed.

End ClientMore.

(** X6.  [_get_token] has an [except httpx.HTTPStatusError] clause that
    re-raises as [Exception(e)], but nothing in its [try] block raises that
    error: whatever the control plane does, [_get_token] never raises
    [Exception(e)], and what it raises is the transport error, the JSON
    decoder's error, a [TypeError] or a [KeyError], each as it was raised. *)
Theorem _get_token_never_wraps cfg srv st :
  (forall e, fst (_get_token cfg srv st) <> Raise (Exception_of e)) /\
  (forall x, fst (_get_token cfg srv st) = Raise x ->
     (exists detail, x = HTTPError (TransportError detail)) \/
     x = JSONDecodeError \/ x = TypeError \/ x = KeyError "access_token").
Proof.
  rewrite _get_token_cases. simpl.
  destruct (srv (token_request cfg)) as [r|detail].
  - destruct (body r) as [v|].
    + destruct v; try (split; [discriminate | intros x [= <-]; tauto]).
      destruct (d !! "access_token");
        (split; [discriminate | intros x; try discriminate; intros [= <-]; tauto]).
    + split; [discriminate | intros x [= <-]; tauto].
  - split; [discriminate | intros x [= <-]; left; now exists detail].
Qed.

(** X8.  When the credential exchange raises, loading the exporter raises the
    same exception after that one POST, and the collector is not built:
    [self.metrics] is left as it was. *)
Theorem startup_stops_at_failed_exchange cfg srv st e :
  fst (MarzbanAPI_init cfg srv st) = Raise e ->
  startup cfg srv st = (Raise e, log (token_request cfg) st).
Proof.
  unfold startup, MarzbanAPI_init, bind. rewrite _get_token_cases. simpl.
  destruct (srv (token_request cfg)) as [r|detail].
  - destruct (body r) as [v|].
    + destruct v; try (intros [= <-]; reflexivity).
      destruct (d !! "access_token"); [discriminate|].
      intros [= <-]. reflexivity.
    + intros [= <-]. reflexivity.
  - intros [= <-]. reflexivity.
Qed.

(** ** The collector, further *)

Lemma for_each_stops body (f : gmap string pyval -> string -> list Sample)
    x rest e :
  (forall d st, collector_state st -> emits (body (PDict d)) st (f d) []) ->
  (forall st, body x st = (Raise e, st)) ->
  forall ds st, collector_state st ->
  exists st',
    for_each (map PDict ds ++ x :: rest) body st = (Raise e, st') /\
    sent st' = sent st /\
    forall key, samples_at key st' = samples_at key st ++ each f ds key.
Proof.
  intros Hbody Hx. induction ds as [|d ds IH]; intros st Hc.
  - exists st. simpl. unfold bind. rewrite Hx.
    repeat split. intros key. now rewrite app_nil_r.
  - destruct (Hbody d st Hc) as (st1 & Hrun & Hc1 & Hs1 & Hn1).
    destruct (IH st1 Hc1) as (st2 & Hrest & Hs2 & Hn2).
    exists st2. simpl. unfold bind at 1. rewrite Hrun. split; [exact Hrest|].
    split.
    + rewrite Hs2, Hs1. apply app_nil_r.
    + intros key. rewrite Hn2, Hn1. unfold each. simpl.
      now rewrite <- app_assoc.
Qed.

Section CollectorMore.

Context (repr : pyval -> string) (int_of_str : string -> option Z).

Lemma collect_sent_prefix self srv st :
  exists n,
    sent (snd (collect repr int_of_str self srv st)) =
    sent st ++ map (get_request repr self) (firstn n endpoints).
Proof.
  unfold collect, bind.
  pose proof (nodes_pass_sent repr self srv st) as H1.
  destruct (_collect_nodes_metrics repr self srv st) as [[[]|e1] st1];
    simpl in H1; [|now exists 1%nat].
  pose proof (usage_pass_sent repr self srv st1) as H2.
  destruct (_collect_nodes_usage_metrics repr self srv st1) as [[[]|e2] st2];
    simpl in H2; rewrite H1 in H2; rewrite <- app_assoc in H2;
    [|now exists 2%nat].
  pose proof (system_pass_sent repr self srv st2) as H3.
  destruct (_collect_system_metrics repr self srv st2) as [[[]|e3] st3];
    simpl in H3; rewrite H2 in H3; rewrite <- app_assoc in H3;
    [|now exists 3%nat].
  pose proof (core_pass_sent repr int_of_str self srv st3) as H4.
  destruct (_collect_core_metrics repr int_of_str self srv st3) as [[[]|e4] st4];
    simpl in H4; rewrite H3 in H4; rewrite <- app_assoc in H4;
    [|now exists 4%nat].
  pose proof (users_pass_sent repr self srv st4) as H5.
  destruct (_collect_users_metrics repr self srv st4) as [[[]|e5] st5];
    simpl in H5; rewrite H4 in H5; rewrite <- app_assoc in H5;
    now exists 5%nat.
Qed.

(** X9.  A scrape never goes back to the credential exchange.  Whatever the
    control plane answers, a [401] included, all that [collect] sends are
    GETs to the five resource paths, each with the token the client was built
    with as bearer and with no form. *)
Theorem collect_only_gets self srv st :
  exists new,
    sent (snd (collect repr int_of_str self srv st)) = sent st ++ new /\
    Forall (scrape_request repr self) new.
Proof.
  destruct (collect_sent_prefix self srv st) as [n Hn].
  exists (map (get_request repr self) (firstn n endpoints)).
  split; [exact Hn|].
  apply List.Forall_forall. intros rq Hin.
  apply in_map_iff in Hin as (endpoint & <- & Hin).
  assert (Hin' : In endpoint endpoints).
  { rewrite <- (firstn_skipn n endpoints). apply in_or_app. now left. }
  unfold scrape_request, get_request; cbn [req_method req_path req_authorization req_form].
  repeat split. exact Hin'.
Qed.

(** X10.  [core_started] is [1] when the core reports [started] as [true] and
    [0] when it reports [false]; when it reports [null] the pass raises
    [TypeError] out of [int(None)], with no sample added. *)
Theorem core_started_values self srv st d :
  collector_state st ->
  success_body (srv (get_request repr self "/core")) = Some (PDict d) ->
  (forall b : bool, d !! "started" = Some (PBool b) ->
     exists st',
       _collect_core_metrics repr int_of_str self srv st = (Ok tt, st') /\
       samples_at "core_started" st' =
         samples_at "core_started" st ++
         [plain "core_started" (PInt (if b then 1 else 0))]) /\
  (d !! "started" = Some PNone ->
     _collect_core_metrics repr int_of_str self srv st =
       (Raise TypeError, log (get_request repr self "/core") st)).
Proof.
  intros Hc Hv. split.
  - intros b Hb.
    assert (Hint : int int_of_str (field d "started" (PBool false)) =
                   ret (PInt (if b then 1 else 0))).
    { now rewrite (field_present _ _ _ _ Hb). }
    destruct (core_pass_emits repr int_of_str self srv st d _ Hc Hv Hint)
      as (st' & Hrun & _ & _ & Hn).
    exists st'. split; [exact Hrun|]. now rewrite Hn.
  - intros Hnull.
    unfold _collect_core_metrics, fetch_core_data, bind.
    rewrite (_fetch_success _ _ _ _ _ _ Hv), get_dict.
    unfold ret. now rewrite (field_present _ _ _ _ Hnull).
Qed.

(** X11.  A [/nodes] body with nothing to iterate over, be it the empty list,
    the empty object or the empty string, is taken without complaint: the
    node pass returns and adds no sample. *)
Theorem nodes_pass_empty_body self srv st v :
  collector_state st ->
  success_body (srv (get_request repr self "/nodes")) = Some v ->
  v = PList [] \/ v = PDict ∅ \/ v = PStr "" ->
  exists st',
    _collect_nodes_metrics repr self srv st = (Ok tt, st') /\
    metrics st' = metrics st.
Proof.
  intros Hc Hv Hempty.
  unfold _collect_nodes_metrics, fetch_nodes_data, bind.
  rewrite (_fetch_success _ _ _ _ _ _ Hv).
  exists (log (get_request repr self "/nodes") st).
  split; [|reflexivity].
  unfold for_in, bind, lift.
  destruct Hempty as [->|[->| ->]]; unfold py_iter.
  - reflexivity.
  - now rewrite map_to_list_empty.
  - reflexivity.
Qed.

(** X12.  The node pass has no way back.  When the [/nodes] list holds
    something that is not a JSON object, the pass raises [AttributeError] at
    that element, the samples of the nodes before it are in the collector,
    and the elements after it are not looked at. *)
Theorem nodes_pass_stops_at_non_object self srv st ds x rest :
  collector_state st ->
  success_body (srv (get_request repr self "/nodes")) =
    Some (PList (map PDict ds ++ x :: rest)) ->
  (forall d, x <> PDict d) ->
  exists st',
    _collect_nodes_metrics repr self srv st =
      (Raise (AttributeError "get"), st') /\
    samples_at "node_usage_coefficient" st' =
      samples_at "node_usage_coefficient" st ++
      map (fun d =>
             labelled "node_usage_coefficient" "node_name"
               (field d "name" (PStr "unknown"))
               (field d "usage_coefficient" (PInt 0))) ds /\
    samples_at "node_address" st' =
      samples_at "node_address" st ++ map (node_info repr) ds.
Proof.
  intros Hc Hv Hx.
  unfold _collect_nodes_metrics, fetch_nodes_data.
  unfold bind at 1. rewrite (_fetch_success _ _ _ _ _ _ Hv).
  change (for_in (PList ?l) ?body) with (for_each l body).
  match goal with
  | |- context [for_each _ ?b] =>
      destruct (for_each_stops b (node_samples repr) x rest
                  (AttributeError "get")) with
        (ds := ds) (st := log (get_request repr self "/nodes") st)
        as (st' & Hrun & _ & Hn)
  end.
  - intros d st1 Hc1. cbn [get].
    eapply emits_ext; [repeat emit_step | intros key; reflexivity].
  - intros st1. destruct (get_cases x "name" (PStr "unknown")) as [[d ->]|Hr].
    + now destruct (Hx d).
    + unfold bind at 1. now rewrite Hr.
  - exact Hc.
  - exists st'. split; [exact Hrun|]. split.
    + rewrite Hn. f_equal; try (apply each_one; now intros d).
    + rewrite Hn. f_equal; try (apply each_one; now intros d).
Qed.

End CollectorMore.

Ltac count_scrape :=
  unfold scrape_samples; rewrite !length_app;
  repeat match goal with
    | |- context [length (each ?f ?ds ?k)] =>
        first [ rewrite (length_each f ds k 0%nat) by (intros; reflexivity)
              | rewrite (length_each f ds k 1%nat) by (intros; reflexivity) ]
    | |- context [length (system_samples ?d ?k)] =>
        let n := eval lazy in (length (system_samples d k)) in
        change (length (system_samples d k)) with n
    | |- context [length (only ?a ?s ?k)] =>
        let n := eval lazy in (length (only a s k)) in
        change (length (only a s k)) with n
    end;
  lia.

Section Repeated.

Context (repr : pyval -> string) (int_of_str : string -> option Z).

Lemma rescrape_samples self srv nodes usages system started users n :
  well_formed repr int_of_str self srv nodes usages system started users ->
  forall st, collector_state st ->
  exists st',
    rescrape repr int_of_str self srv n st = (Ok (map snd (metrics st')), st') /\
    collector_state st' /\
    forall key,
      length (samples_at key st') =
      (length (samples_at key st) +
       S n * length (scrape_samples repr nodes usages system started users key))%nat.
Proof.
  intros Hwf. induction n as [|n IH]; intros st Hc.
  - destruct (collect_scrape repr int_of_str self srv st _ _ _ _ _ Hc Hwf)
      as (st' & Hrun & Hc' & _ & Hnew).
    exists st'. split; [exact Hrun|]. split; [exact Hc'|].
    intros key. rewrite Hnew, length_app. lia.
  - destruct (collect_scrape repr int_of_str self srv st _ _ _ _ _ Hc Hwf)
      as (st1 & Hrun & Hc1 & _ & Hnew).
    destruct (IH st1 Hc1) as (st' & Hrest & Hc' & Hlen).
    exists st'. cbn [rescrape]. unfold bind. rewrite Hrun.
    split; [exact Hrest|]. split; [exact Hc'|].
    intros key. rewrite Hlen, Hnew, length_app. lia.
Qed.

Lemma scrape_samples_count nodes usages system started users :
  let new := scrape_samples repr nodes usages system started users in
  length (new "system_version") = 1%nat /\
  length (new "core_started") = 1%nat /\
  length (new "total_users") = 1%nat /\
  length (new "node_usage_coefficient") = length nodes /\
  length (new "node_address") = length nodes /\
  length (new "node_uplink") = length usages /\
  length (new "node_downlink") = length usages /\
  length (new "user_traffic") = length users.
Proof. cbv zeta. repeat split; count_scrape. Qed.

(** X4.  Samples pile up scrape after scrape.  When the control plane gives
    the same well-formed answers every time, the Metric Set that scrape
    number [n + 1] of a newly built collector returns holds [n + 1] samples
    of [system_version], of [core_started] and of [total_users], and [n + 1]
    samples for every node, every usage record and every user. *)
Theorem nth_scrape_counts self srv rqs nodes usages system started users n :
  well_formed repr int_of_str self srv nodes usages system started users ->
  exists fams st',
    rescrape repr int_of_str self srv n (mkState metrics_init rqs) =
      (Ok fams, st') /\
    length (samples_named "system_version" fams) = S n /\
    length (samples_named "core_started" fams) = S n /\
    length (samples_named "total_users" fams) = S n /\
    length (samples_named "node_usage_coefficient" fams) = (S n * length nodes)%nat /\
    length (samples_named "node_info" fams) = (S n * length nodes)%nat /\
    length (samples_named "node_uplink_bytes" fams) = (S n * length usages)%nat /\
    length (samples_named "node_downlink_bytes" fams) = (S n * length usages)%nat /\
    length (samples_named "user_lifetime_used_traffic_bytes" fams) =
      (S n * length users)%nat.
Proof.
  intros Hwf.
  destruct (rescrape_samples self srv nodes usages system started users n Hwf
              (mkState metrics_init rqs) (collector_state_init rqs))
    as (st' & Hrun & Hc' & Hlen).
  destruct (scrape_samples_count nodes usages system started users)
    as (C1 & C2 & C3 & C4 & C5 & C6 & C7 & C8).
  exists (map snd (metrics st')), st'. split; [exact Hrun|].
  rewrite (samples_named_key st' "system_version" "system_version" Hc' eq_refl).
  rewrite (samples_named_key st' "core_started" "core_started" Hc' eq_refl).
  rewrite (samples_named_key st' "total_users" "total_users" Hc' eq_refl).
  rewrite (samples_named_key st' "node_usage_coefficient" "node_usage_coefficient" Hc' eq_refl).
  rewrite (samples_named_key st' "node_address" "node_info" Hc' eq_refl).
  rewrite (samples_named_key st' "node_uplink" "node_uplink_bytes" Hc' eq_refl).
  rewrite (samples_named_key st' "node_downlink" "node_downlink_bytes" Hc' eq_refl).
  rewrite (samples_named_key st' "user_traffic" "user_lifetime_used_traffic_bytes" Hc' eq_refl).
  rewrite !Hlen, C1, C2, C3, C4, C5, C6, C7, C8.
  change (length (samples_at ?k (mkState metrics_init rqs))) with 0%nat.
  repeat split; lia.
Qed.

(** X13.  The user pass has no way back either.  When the list under ["users"]
    holds something that is not a JSON object, [total_users] has already been
    added with the length of the whole list, the users before that element
    have their samples, and the pass raises [AttributeError]: the collector
    is left with a [total_users] value that counts more users than it has
    samples for. *)
Theorem users_pass_stops_at_non_object self srv st d ds x rest :
  collector_state st ->
  success_body (srv (get_request repr self "/users")) = Some (PDict d) ->
  d !! "users" = Some (PList (map PDict ds ++ x :: rest)) ->
  (forall u, x <> PDict u) ->
  exists st',
    _collect_users_metrics repr self srv st =
      (Raise (AttributeError "get"), st') /\
    samples_at "total_users" st' =
      samples_at "total_users" st ++
      [plain "total_users" (PInt (Z.of_nat (length ds + 1 + length rest)))] /\
    samples_at "user_traffic" st' =
      samples_at "user_traffic" st ++
      map (fun u =>
             labelled "user_lifetime_used_traffic_bytes" "username"
               (field u "username" (PStr "unknown"))
               (field u "lifetime_used_traffic" (PInt 0))) ds.
Proof.
  intros Hc Hv Hd Hx.
  pose (body := fun user : pyval =>
          username <- get user "username" (PStr "unknown") ;;
          traffic <- get user "lifetime_used_traffic" (PInt 0) ;;
          add_metric "user_traffic" [username] traffic).
  pose (st0 := log (get_request repr self "/users") st).
  assert (Hc0 : collector_state st0) by exact Hc.
  destruct (add_metric_emits "total_users" []
              (PInt (Z.of_nat (length (map PDict ds ++ x :: rest))))
              st0 _ Hc0 eq_refl) as (st1 & Hadd & Hc1 & _ & Hn1).
  destruct (for_each_stops body user_samples x rest (AttributeError "get"))
    with (ds := ds) (st := st1) as (st' & Hrun & _ & Hn).
  - intros u st2 Hc2. unfold body. cbn [get].
    eapply emits_ext; [repeat emit_step | intros key; reflexivity].
  - intros st2. unfold body.
    destruct (get_cases x "username" (PStr "unknown")) as [[u ->]|Hr].
    + now destruct (Hx u).
    + unfold bind at 1. now rewrite Hr.
  - exact Hc1.
  - exists st'. split; [|split].
    + unfold _collect_users_metrics, fetch_users_data.
      unfold bind at 1. rewrite (_fetch_success _ _ _ _ _ _ Hv).
      rewrite get_dict, (field_present _ _ _ _ Hd).
      change ((add_metric "total_users" []
                 (PInt (Z.of_nat (length (map PDict ds ++ x :: rest)))) ;;
               for_each (map PDict ds ++ x :: rest) body) st0 =
              (Raise (AttributeError "get"), st')).
      unfold bind. rewrite Hadd. exact Hrun.
    + rewrite Hn, Hn1.
      change (samples_at "total_users" st0) with (samples_at "total_users" st).
      rewrite (each_none user_samples ds "total_users" (fun u => eq_refl)).
      rewrite app_nil_r.
      replace (length (map PDict ds ++ x :: rest))
        with (length ds + 1 + length rest)%nat
        by (rewrite length_app, length_map; simpl; lia).
      reflexivity.
    + rewrite Hn, Hn1.
      change (samples_at "user_traffic" st0) with (samples_at "user_traffic" st).
      rewrite (each_one user_samples _ ds "user_traffic" (fun u => eq_refl)).
      now rewrite app_nil_r.
Qed.

End Repeated.

Section SystemMore.

Context (repr : pyval -> string).

(** X16.  [system_version] is added before the [/system] body is looked at.
    On a JSON object the pass adds it with value [1], whatever the object
    holds; on a body that is not an object the pass raises [AttributeError]
    at the first [.get], and the [system_version] sample is in the collector
    all the same; no other family has a sample added. *)
Theorem system_version_added_first self srv st v :
  collector_state st ->
  success_body (srv (get_request repr self "/system")) = Some v ->
  (forall d, v = PDict d ->
     exists st',
       _collect_system_metrics repr self srv st = (Ok tt, st') /\
       samples_at "system_version" st' =
         samples_at "system_version" st ++ [plain "system_version" (PInt 1)]) /\
  ((forall d, v <> PDict d) ->
     exists st',
       _collect_system_metrics repr self srv st =
         (Raise (AttributeError "get"), st') /\
       samples_at "system_version" st' =
         samples_at "system_version" st ++ [plain "system_version" (PInt 1)] /\
       forall key, key <> "system_version" ->
         samples_at key st' = samples_at key st).
Proof.
  intros Hc Hv. split.
  - intros d ->.
    destruct (system_pass_emits repr self srv st d Hc Hv)
      as (st' & Hrun & _ & _ & Hn).
    exists st'. split; [exact Hrun|]. now rewrite Hn.
  - intros Hnot.
    pose (st0 := log (get_request repr self "/system") st).
    assert (Hc0 : collector_state st0) by exact Hc.
    destruct (add_metric_emits "system_version" [] (PInt 1) st0 _ Hc0 eq_refl)
      as (st1 & Hadd & _ & _ & Hn1).
    exists st1. split; [|split].
    + unfold _collect_system_metrics, fetch_system_data.
      unfold bind at 1. rewrite (_fetch_success _ _ _ _ _ _ Hv).
      fold st0. unfold bind at 1. rewrite Hadd.
      destruct (get_cases v "mem_total" (PInt 0)) as [[d ->]|Hr].
      * now destruct (Hnot d).
      * unfold bind at 1. now rewrite Hr.
    + now rewrite Hn1.
    + intros key Hkey. rewrite Hn1.
      apply String.eqb_neq in Hkey. rewrite Hkey. apply app_nil_r.
Qed.

End SystemMore.

(** ** The further properties at the fixtures *)

Lemma wrapped_fixtures_well_formed :
  well_formed repr_scalar int_of_decimal api0 wrapped_fixtures
    [node_n1] [usage_n1] system_fixture (PInt 1) [user_alice].
Proof.
  split.
  - reflexivity.
  - eexists. split; [reflexivity|]. vm_compute. reflexivity.
  - reflexivity.
  - eexists. split; [reflexivity|].
    replace (field core_fixture "started" (PBool false)) with (PBool true)
      by (vm_compute; reflexivity).
    reflexivity.
  - eexists. split; [reflexivity|]. vm_compute. reflexivity.
Qed.

Lemma tidy_fresh : tidy fresh.
Proof.
  split; [reflexivity|]. unfold fresh, metrics_init. simpl.
  repeat constructor.
Qed.

Lemma collect_only_appends_witness :
  collector_state (snd first_scrape) /\
  extends (snd first_scrape) (snd second_scrape).
Proof.
  assert (Hc : collector_state (snd first_scrape)) by (vm_compute; reflexivity).
  split; [exact Hc|].
  exact (collect_only_appends repr_scalar int_of_decimal api0 wrapped_fixtures
           (snd first_scrape) Hc).
Defined.

Lemma collect_serves_all_families_witness :
  collector_state fresh /\
  scrape wrapped_fixtures fresh =
    (Ok (map snd (metrics (snd first_scrape))), snd first_scrape) /\
  map name (map snd (metrics (snd first_scrape))) = family_names.
Proof.
  assert (Hrun : scrape wrapped_fixtures fresh =
                 (Ok (map snd (metrics (snd first_scrape))), snd first_scrape))
    by (vm_compute; reflexivity).
  split; [reflexivity|]. split; [exact Hrun|].
  exact (collect_serves_all_families repr_scalar int_of_decimal api0
           wrapped_fixtures fresh _ _ (collector_state_init []) Hrun).
Defined.

Lemma collect_keeps_tidy_witness :
  tidy fresh /\ tidy (snd (scrape second_node_is_a_number fresh)).
Proof.
  split; [exact tidy_fresh|].
  exact (proj1 (collect_keeps_tidy repr_scalar int_of_decimal api0
                  second_node_is_a_number fresh tidy_fresh)).
Defined.

Lemma nth_scrape_counts_witness :
  exists fams st',
    rescrape repr_scalar int_of_decimal api0 wrapped_fixtures 2 fresh =
      (Ok fams, st') /\
    length (samples_named "system_version" fams) = 3%nat /\
    length (samples_named "node_info" fams) = 3%nat.
Proof.
  destruct (nth_scrape_counts repr_scalar int_of_decimal api0 wrapped_fixtures
              [] [node_n1] [usage_n1] system_fixture (PInt 1) [user_alice] 2
              wrapped_fixtures_well_formed)
    as (fams & st' & Hrun & Hv & _ & _ & _ & Hinfo & _).
  exists fams, st'. split; [exact Hrun|]. split; [exact Hv|exact Hinfo].
Defined.

Lemma startup_stops_at_failed_exchange_witness :
  fst (MarzbanAPI_init env credentials_refused blank) =
    Raise (KeyError "access_token") /\
  startup env credentials_refused blank =
    (Raise (KeyError "access_token"), log (token_request env) blank).
Proof.
  assert (H : fst (MarzbanAPI_init env credentials_refused blank) =
              Raise (KeyError "access_token")) by (vm_compute; reflexivity).
  split; [exact H|].
  exact (startup_stops_at_failed_exchange env credentials_refused blank _ H).
Defined.

Lemma core_started_values_witness :
  collector_state fresh /\
  exists st',
    _collect_core_metrics repr_scalar int_of_decimal api0 wrapped_fixtures fresh =
      (Ok tt, st') /\
    samples_at "core_started" st' = [plain "core_started" (PInt 1)].
Proof.
  split; [reflexivity|].
  destruct (core_started_values repr_scalar int_of_decimal api0 wrapped_fixtures
              fresh core_fixture (collector_state_init []) eq_refl)
    as [Hbool _].
  assert (Hs : core_fixture !! "started" = Some (PBool true))
    by (vm_compute; reflexivity).
  destruct (Hbool true Hs) as (st' & Hrun & Hn).
  exists st'. split; [exact Hrun|exact Hn].
Defined.

Lemma nodes_pass_empty_body_witness :
  collector_state fresh /\
  exists st',
    _collect_nodes_metrics repr_scalar api0 nodes_is_empty_object fresh =
      (Ok tt, st') /\
    metrics st' = metrics fresh.
Proof.
  split; [reflexivity|].
  apply (nodes_pass_empty_body repr_scalar api0 nodes_is_empty_object fresh
           (PDict ∅) (collector_state_init []) eq_refl).
  right. left. reflexivity.
Defined.

Lemma nodes_pass_stops_at_non_object_witness :
  collector_state fresh /\
  (forall d, PInt 7 <> PDict d) /\
  exists st',
    _collect_nodes_metrics repr_scalar api0 second_node_is_a_number fresh =
      (Raise (AttributeError "get"), st') /\
    length (samples_at "node_usage_coefficient" st') = 1%nat.
Proof.
  assert (Hx : forall d, PInt 7 <> PDict d) by discriminate.
  split; [reflexivity|]. split; [exact Hx|].
  destruct (nodes_pass_stops_at_non_object repr_scalar api0
              second_node_is_a_number fresh [node_n1] (PInt 7) [PDict node_n1]
              (collector_state_init []) eq_refl Hx)
    as (st' & Hrun & Hcoeff & _).
  exists st'. split; [exact Hrun|]. now rewrite Hcoeff.
Defined.

Lemma users_pass_stops_at_non_object_witness :
  collector_state fresh /\
  (forall u, PNone <> PDict u) /\
  exists st',
    _collect_users_metrics repr_scalar api0 second_user_is_null fresh =
      (Raise (AttributeError "get"), st') /\
    samples_at "total_users" st' = [plain "total_users" (PInt 2)] /\
    length (samples_at "user_traffic" st') = 1%nat.
Proof.
  assert (Hx : forall u, PNone <> PDict u) by discriminate.
  split; [reflexivity|]. split; [exact Hx|].
  assert (Hd : obj [("users", PList [PDict user_alice; PNone])] !! "users" =
               Some (PList (map PDict [user_alice] ++ PNone :: [])))
    by (vm_compute; reflexivity).
  destruct (users_pass_stops_at_non_object repr_scalar api0
              second_user_is_null fresh _ [user_alice] PNone []
              (collector_state_init []) eq_refl Hd Hx)
    as (st' & Hrun & Htotal & Htraffic).
  exists st'. split; [exact Hrun|]. split; [exact Htotal|].
  now rewrite Htraffic.
Defined.

Lemma collect_fetch_failure_propagates_witness :
  In "/nodes/usage" endpoints /\
  failure_of (usage_down (get_request repr_scalar api0 "/nodes/usage")) =
    Some (HTTPStatusError 500) /\
  failed (fst (scrape usage_down fresh)).
Proof.
  assert (Hin : In "/nodes/usage" endpoints) by (right; left; reflexivity).
  split; [exact Hin|]. split; [reflexivity|].
  exact (collect_fetch_failure_propagates repr_scalar int_of_decimal api0
           usage_down "/nodes/usage" (HTTPStatusError 500) fresh Hin eq_refl).
Defined.

Lemma usage_failure_keeps_node_samples_witness :
  collector_state fresh /\
  exists st',
    scrape usage_down fresh =
      (Raise (Exception_fetching "/nodes/usage" (HTTPStatusError 500)), st') /\
    length (samples_at "node_usage_coefficient" st') = 1%nat.
Proof.
  split; [reflexivity|].
  destruct (usage_failure_keeps_node_samples repr_scalar int_of_decimal api0
              usage_down fresh [node_n1] (HTTPStatusError 500)
              (collector_state_init []) eq_refl eq_refl)
    as (st' & Hrun & Hn).
  exists st'. split; [exact Hrun|]. now rewrite Hn.
Defined.

Lemma system_version_added_first_witness :
  collector_state fresh /\
  (forall d, PList [] <> PDict d) /\
  exists st',
    _collect_system_metrics repr_scalar api0 system_is_a_list fresh =
      (Raise (AttributeError "get"), st') /\
    samples_at "system_version" st' = [plain "system_version" (PInt 1)].
Proof.
  assert (Hx : forall d, PList [] <> PDict d) by discriminate.
  split; [reflexivity|]. split; [exact Hx|].
  destruct (system_version_added_first repr_scalar api0 system_is_a_list fresh
              (PList []) (collector_state_init []) eq_refl)
    as [_ Hnot].
  destruct (Hnot Hx) as (st' & Hrun & Hv & _).
  exists st'. split; [exact Hrun|exact Hv].
Defined.
